(** * sitesgouv.py: loading and analysing the list of French government domains

    A shallow embedding of [AnalyseurDomainesGouvFr] (src/sitesgouv.py).

    The source file is read with the latin-1 codec, so every character of the
    text is a code point in 0..255: a Python [str] is a [string] of 8-bit
    [ascii] characters.  Exceptions are values of [outcome], [sys.exit] is a
    value of [process], and the fields of [self] are threaded explicitly. *)

From Stdlib Require Import Ascii ZArith.
From stdpp Require Import base decidable option list sorting strings pretty gmap.


(** ** Exceptions and process termination *)

Inductive exn : Set := IndexError | ValueError | ZeroDivisionError | OSError.

Inductive outcome (A : Type) : Type :=
| Return (a : A)
| Raise (e : exn).
Arguments Return {A} a.
Arguments Raise {A} e.

Global Instance outcome_ret : MRet outcome := λ A a, Return a.
Global Instance outcome_bind : MBind outcome := λ A B k m,
  match m with
  | Return a => k a
  | Raise e => Raise e
  end.

(** [sys.exit(code)] ends the run; otherwise the method returns. *)
Inductive process (A : Type) : Type :=
| Continue (a : A)
| Exit (code : Z).
Arguments Continue {A} a.
Arguments Exit {A} code.

(** ** Characters (code points 0..255) *)

Definition ord (c : ascii) : N := N_of_ascii c.

Definition entre (lo hi : N) (c : ascii) : bool :=
  ((lo <=? ord c) && (ord c <=? hi))%N.

(** [c.isspace()]: TAB LF VT FF CR, FS GS RS US, SPACE, NEL, NBSP. *)
Definition char_isspace (c : ascii) : bool :=
  entre 9 13 c || entre 28 32 c || (ord c =? 133)%N || (ord c =? 160)%N.

(** [c.isprintable()]: everything but the controls (0..31, 127..159), the
    no-break space 160 and the soft hyphen 173. *)
Definition char_isprintable (c : ascii) : bool :=
  entre 32 126 c || entre 161 172 c || entre 174 255 c.

(** Upper-case letters: A..Z, and the accented capitals but the sign 215. *)
Definition char_isupper (c : ascii) : bool :=
  entre 65 90 c || entre 192 214 c || entre 216 222 c.

Definition minuscule (c : ascii) : bool := negb (char_isupper c).

Definition char_lower (c : ascii) : ascii :=
  if char_isupper c then ascii_of_N (ord c + 32) else c.

(** ** Strings *)

Fixpoint str_map (f : ascii → ascii) (s : string) : string :=
  match s with
  | "" => ""
  | String c r => String (f c) (str_map f r)
  end.

Fixpoint str_filter (p : ascii → bool) (s : string) : string :=
  match s with
  | "" => ""
  | String c r => if p c then String c (str_filter p r) else str_filter p r
  end.

Fixpoint str_all (p : ascii → bool) (s : string) : bool :=
  match s with
  | "" => true
  | String c r => p c && str_all p r
  end.

(** [bool(s)]: a string is true when it is not empty. *)
Definition non_vide (s : string) : bool :=
  match s with "" => false | String _ _ => true end.

Definition lower (s : string) : string := str_map char_lower s.

(** [s.isspace()] *)
Definition isspace (s : string) : bool := non_vide s && str_all char_isspace s.

Fixpoint lstrip (s : string) : string :=
  match s with
  | "" => ""
  | String c r => if char_isspace c then lstrip r else s
  end.

Fixpoint rstrip (s : string) : string :=
  match s with
  | "" => ""
  | String c r =>
      match rstrip r with
      | "" => if char_isspace c then "" else String c ""
      | r' => String c r'
      end
  end.

Definition strip (s : string) : string := rstrip (lstrip s).

Fixpoint startswith (p s : string) : bool :=
  match p, s with
  | "", _ => true
  | String a p', String b s' => bool_decide (a = b) && startswith p' s'
  | String _ _, "" => false
  end.

(** [suf] is one of the tails of [s]. *)
Fixpoint endswith (suf s : string) : bool :=
  bool_decide (s = suf) ||
  match s with
  | "" => false
  | String _ r => endswith suf r
  end.

(** [sub in s] *)
Fixpoint contient (sub s : string) : bool :=
  startswith sub s ||
  match s with
  | "" => false
  | String _ r => contient sub r
  end.

(** [c in s] for a character *)
Fixpoint contient_char (c : ascii) (s : string) : bool :=
  match s with
  | "" => false
  | String a r => bool_decide (a = c) || contient_char c r
  end.

(** [s[:n]] *)
Fixpoint str_take (n : nat) (s : string) : string :=
  match n, s with
  | S k, String c r => String c (str_take k r)
  | _, _ => ""
  end.

(** [s.split(sep)] for a one-character separator: never the empty list. *)
Fixpoint split_char (sep : ascii) (s : string) : list string :=
  match s with
  | "" => [""]
  | String c r =>
      if bool_decide (c = sep) then "" :: split_char sep r
      else match split_char sep r with
           | w :: ws => String c w :: ws
           | [] => [String c ""]
           end
  end.

(** [s.split()]: the maximal runs of characters that are not whitespace. *)
Fixpoint split (s : string) : list string :=
  match s with
  | "" => []
  | String c r =>
      if char_isspace c then split r
      else match r with
           | "" => [String c ""]
           | String c' _ =>
               if char_isspace c' then String c "" :: split r
               else match split r with
                    | w :: ws => String c w :: ws
                    | [] => [String c ""]
                    end
           end
  end.

(** [s.replace(old, new)] for a non-empty [old]: one scan from the left, the
    occurrences found do not overlap and the text produced is not scanned
    again.  [skip] counts the characters of a match still to be dropped. *)
Fixpoint replace_go (old new : string) (skip : nat) (s : string) : string :=
  match s with
  | "" => ""
  | String c r =>
      match skip with
      | S k => replace_go old new k r
      | O =>
          if startswith old s
          then new +:+ replace_go old new (String.length old - 1) r
          else String c (replace_go old new 0 r)
      end
  end.

Definition replace (old new s : string) : string := replace_go old new 0 s.

(** [l[0]] *)
Definition premier {A} (l : list A) : outcome A :=
  match l with
  | x :: _ => Return x
  | [] => Raise IndexError
  end.

(** ** Reading the file *)

Definition LF : ascii := ascii_of_N 10.
Definition CR : ascii := ascii_of_N 13.
Definition TAB : ascii := ascii_of_N 9.

(** Text mode with the default [newline=None]: CR LF and a lone CR are both
    read as LF. *)
Fixpoint universal_newlines (s : string) : string :=
  match s with
  | "" => ""
  | String c r =>
      if bool_decide (c = CR) then
        match r with
        | String c' r' =>
            if bool_decide (c' = LF) then String LF (universal_newlines r')
            else String LF (universal_newlines r)
        | "" => String LF ""
        end
      else String c (universal_newlines r)
  end.

(** Cut after every LF and keep it at the end of its line. *)
Fixpoint lines_keepends (s : string) : list string :=
  match s with
  | "" => []
  | String c r =>
      if bool_decide (c = LF) then String c "" :: lines_keepends r
      else match lines_keepends r with
           | l :: ls => String c l :: ls
           | [] => [String c ""]
           end
  end.

Definition readlines (contenu : string) : list string :=
  lines_keepends (universal_newlines contenu).

(** The files that can be opened, by path, with their decoded content. *)
Definition fichiers : Type := string → option string.

(** [open(path, 'r', encoding='latin-1')] followed by [f.readlines()] *)
Definition open_readlines (fs : fichiers) (path : string) : outcome (list string) :=
  match fs path with
  | Some contenu => Return (readlines contenu)
  | None => Raise OSError
  end.

(** ** The analyser object *)

Record analyseur : Type := Analyseur {
  source_file : string;
  lignes_brutes : nat;
  domaines : list string;
  domaines_manquants : list string
}.

(** [AnalyseurDomainesGouvFr.__init__] *)
Definition init (source_file : string) : analyseur :=
  {| source_file := source_file;
     lignes_brutes := 0;
     domaines := [];
     domaines_manquants := [] |}.

(** ** The loader: [charger_domaines] *)

Definition tld_valides : list string :=
  [".gouv.fr"; ".fr"; ".gouv.nc"; ".nc"; ".gouv.pf"; ".pref.gouv.fr"].

(** [sorted(...)] on strings: ascending code-point order. *)
Definition sorted (l : list string) : list string := merge_sort String.le l.

(** [ligne.split('\t')[0] if '\t' in ligne else ligne.split()[0]] *)
Definition extraire_partie (ligne : string) : outcome string :=
  if contient_char TAB ligne then premier (split_char TAB ligne)
  else premier (split ligne).

(** [c.isprintable() and not c.isspace()] *)
Definition propre (c : ascii) : bool := char_isprintable c && negb (char_isspace c).

(** The two cleaning steps on the candidate token. *)
Definition nettoyer (partie_domaine : string) : string :=
  let domaine := replace "www." "" (lower partie_domaine) in
  str_filter propre domaine.

(** [any(domaine.endswith(tld) for tld in tld_valides)] *)
Definition accepte (domaine : string) : bool :=
  existsb (λ tld, endswith tld domaine) tld_valides.

(** [f"Ligne {i}: {ligne[:50]}..."] *)
Definition message_manquant (i : nat) (ligne : string) : string :=
  "Ligne " +:+ pretty i +:+ ": " +:+ str_take 50 ligne +:+ "...".

(** What the loop carries: the local set and the list held by [self]. *)
Record chargement : Type := Chargement {
  ensemble_domaines : gset string;
  manquants : list string
}.

(** One turn of the loop, for the line [ligne] numbered [i]. *)
Definition traiter_ligne (i : nat) (ligne : string) (st : chargement)
    : outcome chargement :=
  let ligne := strip ligne in
  if negb (non_vide ligne) then Return st
  else
    partie_domaine ← extraire_partie ligne;
    let partie_domaine := strip partie_domaine in
    if non_vide partie_domaine then
      let domaine := nettoyer partie_domaine in
      if accepte domaine then
        Return {| ensemble_domaines := {[domaine]} ∪ ensemble_domaines st;
                  manquants := manquants st |}
      else if non_vide ligne && negb (startswith "#" ligne)
                && negb (isspace ligne) then
        Return {| ensemble_domaines := ensemble_domaines st;
                  manquants := manquants st ++ [message_manquant i ligne] |}
      else Return st
    else Return st.

(** [for i, ligne in enumerate(lignes, 1): ...], entered with [i = 1] *)
Fixpoint boucle_lignes (i : nat) (lignes : list string) (st : chargement)
    : outcome chargement :=
  match lignes with
  | [] => Return st
  | ligne :: reste =>
      st' ← traiter_ligne i ligne st;
      boucle_lignes (S i) reste st'
  end.

(** [len([l for l in lignes if l.strip()])] *)
Definition nb_lignes_brutes (lignes : list string) : nat :=
  length (filter (λ l, non_vide (strip l) = true) lignes).

(** The body of the [try] block. *)
Definition charger_essai (fs : fichiers) (self : analyseur) : outcome analyseur :=
  lignes ← open_readlines fs (source_file self);
  let brutes := nb_lignes_brutes lignes in
  st ← boucle_lignes 1 lignes
         {| ensemble_domaines := ∅; manquants := domaines_manquants self |};
  Return {| source_file := source_file self;
            lignes_brutes := brutes;
            domaines := sorted (elements (ensemble_domaines st));
            domaines_manquants := manquants st |}.

(** [charger_domaines]: any exception ends the process with status 1. *)
Definition charger_domaines (fs : fichiers) (self : analyseur) : process analyseur :=
  match charger_essai fs self with
  | Return self' => Continue self'
  | Raise _ => Exit 1
  end.

(** A file system holding one readable file. *)
Definition un_fichier (path contenu : string) : fichiers :=
  λ p, if bool_decide (p = path) then Some contenu else None.

Definition nl (s : string) : string := s +:+ String LF "".

(** ** The analyser: [analyser] *)

(** The float [round(somme / n, 1)] is kept as the expression it comes from:
    binary floating point is not part of this model. *)
Inductive nombre : Type :=
| Entier (z : Z)
| Arrondi1 (somme n : nat).

(** The dictionary [analyse]: its keys are fixed, one field for each. *)
Record analyse : Type := Analyse {
  total_domaines : nat;
  a_lignes_brutes : nat;
  nombre_manquant : Z;
  ministere_uniquement : nat;
  region_uniquement : nat;
  service_uniquement : nat;
  prefecture_uniquement : nat;
  nombre_chevauchement : nat;
  nombre_ministere : nat;
  nombre_region : nat;
  nombre_service : nat;
  nombre_prefecture : nat;
  nombre_developpement : nat;
  domaine_plus_long : string;
  domaine_plus_court : string;
  longueur_moyenne : nombre;
  manquants_critiques : list string
}.

(** [max(l, key=len)]: the first element of greatest length. *)
Definition max_len (l : list string) : outcome string :=
  match l with
  | [] => Raise ValueError
  | x :: r =>
      Return (fold_left (λ m y, if String.length m <? String.length y then y else m) r x)
  end.

(** [min(l, key=len)]: the first element of least length. *)
Definition min_len (l : list string) : outcome string :=
  match l with
  | [] => Raise ValueError
  | x :: r =>
      Return (fold_left (λ m y, if String.length y <? String.length m then y else m) r x)
  end.

(** [round(somme / n, 1)] *)
Definition moyenne_arrondie (somme n : nat) : outcome nombre :=
  match n with
  | O => Raise ZeroDivisionError
  | S _ => Return (Arrondi1 somme n)
  end.

Definition mots_cles_ministere : list string :=
  ["agriculture"; "culture"; "defense"; "education"; "economie";
   "sante"; "interieur"; "justice"; "travail"; "environnement";
   "logement"; "outre-mer"; "fonction-publique"; "sports"; "budget"].

Definition mots_cles_region : list string :=
  ["alsace"; "aquitaine"; "bretagne"; "corse"; "normandie";
   "provence"; "lorraine"; "bourgogne"; "centre"; "auvergne";
   "franche-comte"; "languedoc"; "limousin"; "midi-pyrenees";
   "picardie"; "poitou-charentes"; "rhone-alpes"; "paca";
   "reunion"; "guadeloupe"; "martinique"; "guyane"; "iledefrance"].

Definition mots_cles_service : list string :=
  ["service-public"; "impots"; "douane"; "legifrance"; "data.gouv";
   "moncompteformation"; "francetravail"; "ants"; "ameli"; "pole-emploi"].

Definition domaines_critiques : list string :=
  ["economie.gouv.fr"; "interieur.gouv.fr"; "education.gouv.fr";
   "sante.gouv.fr"; "defense.gouv.fr"; "justice.gouv.fr";
   "travail.gouv.fr"; "culture.gouv.fr"; "agriculture.gouv.fr";
   "service-public.fr"; "impots.gouv.fr"; "francetravail.fr";
   "gouvernement.fr"; "elysee.fr"; "assemblee-nationale.fr"].

(** [any(mc in domaine for mc in mots)] *)
Definition un_mot_dans (mots : list string) (domaine : string) : bool :=
  existsb (λ mc, contient mc domaine) mots.

(** The five tests of the loop, in the order of the source. *)
Definition est_ministere (d : string) : bool := un_mot_dans mots_cles_ministere d.
Definition est_region (d : string) : bool := un_mot_dans mots_cles_region d.
Definition est_service (d : string) : bool := un_mot_dans mots_cles_service d.
Definition est_prefecture (d : string) : bool := contient ".pref." d.
Definition est_environnement (d : string) : bool :=
  contient "developpement-durable" d || contient "ecologie." d.

Definition ajouter_si (b : bool) (nom : string) (c : gset string) : gset string :=
  if b then {[nom]} ∪ c else c.

(** The set [categories] built for one domain. *)
Definition categories_de (domaine : string) : gset string :=
  ajouter_si (est_environnement domaine) "environnement"
    (ajouter_si (est_prefecture domaine) "prefecture"
      (ajouter_si (est_service domaine) "service"
        (ajouter_si (est_region domaine) "region"
          (ajouter_si (est_ministere domaine) "ministere" ∅)))).

(** The counters updated by the loop over the domains. *)
Record compteurs : Type := Compteurs {
  c_ministere : nat;
  c_region : nat;
  c_service : nat;
  c_prefecture : nat;
  c_chevauchement : nat
}.

Definition compteurs_zero : compteurs := Compteurs 0 0 0 0 0.

(** One turn of [for domaine in self.domaines]. *)
Definition classer (domaine : string) (k : compteurs) : outcome compteurs :=
  let categories := categories_de domaine in
  if size categories =? 1 then
    categorie ← premier (elements categories);
    if bool_decide (categorie = "ministere") then
      Return (Compteurs (c_ministere k + 1) (c_region k) (c_service k) (c_prefecture k) (c_chevauchement k))
    else if bool_decide (categorie = "region") then
      Return (Compteurs (c_ministere k) (c_region k + 1) (c_service k) (c_prefecture k) (c_chevauchement k))
    else if bool_decide (categorie = "service") then
      Return (Compteurs (c_ministere k) (c_region k) (c_service k + 1) (c_prefecture k) (c_chevauchement k))
    else if bool_decide (categorie = "prefecture") then
      Return (Compteurs (c_ministere k) (c_region k) (c_service k) (c_prefecture k + 1) (c_chevauchement k))
    else Return k
  else if 1 <? size categories then
    Return (Compteurs (c_ministere k) (c_region k) (c_service k) (c_prefecture k) (c_chevauchement k + 1))
  else Return k.

Fixpoint boucle_domaines (l : list string) (k : compteurs) : outcome compteurs :=
  match l with
  | [] => Return k
  | domaine :: reste =>
      k' ← classer domaine k;
      boucle_domaines reste k'
  end.

(** [sum(1 for d in l if p(d))] *)
Definition compter (p : string → bool) (l : list string) : nat :=
  length (filter (λ d, p d = true) l).

(** [sum(len(d) for d in l)] *)
Definition somme_longueurs (l : list string) : nat :=
  foldr (λ d acc, String.length d + acc) 0 l.

Definition analyser (self : analyseur) : outcome analyse :=
  let ds := domaines self in
  plus_long ← (if bool_decide (ds ≠ []) then max_len ds else Return "");
  plus_court ← (if bool_decide (ds ≠ []) then min_len ds else Return "");
  moyenne ← (if bool_decide (ds ≠ []) then moyenne_arrondie (somme_longueurs ds) (length ds)
             else Return (Entier 0));
  k ← boucle_domaines ds compteurs_zero;
  Return {| total_domaines := length ds;
            a_lignes_brutes := lignes_brutes self;
            nombre_manquant := Z.of_nat (lignes_brutes self) - Z.of_nat (length ds);
            ministere_uniquement := c_ministere k;
            region_uniquement := c_region k;
            service_uniquement := c_service k;
            prefecture_uniquement := c_prefecture k;
            nombre_chevauchement := c_chevauchement k;
            nombre_ministere := compter est_ministere ds;
            nombre_region := compter est_region ds;
            nombre_service := compter est_service ds;
            nombre_prefecture := compter est_prefecture ds;
            nombre_developpement := compter (contient "developpement-durable") ds;
            domaine_plus_long := plus_long;
            domaine_plus_court := plus_court;
            longueur_moyenne := moyenne;
            manquants_critiques :=
              filter (λ d, d ∉ ds) domaines_critiques |}.

(** The run of [main] up to the analysis: a fresh object, load, analyse. *)
Definition executer (fs : fichiers) (path : string) : process (outcome analyse) :=
  match charger_domaines fs (init path) with
  | Continue self => Continue (analyser self)
  | Exit code => Exit code
  end.

(** ** Notions used in the statements *)

(** What one turn of the loop can do to the set and to the list. *)
Inductive effet (i : nat) (ligne : string) (st : chargement) : chargement → Prop :=
| effet_aucun : effet i ligne st st
| effet_accepte partie :
    strip ligne ≠ "" →
    extraire_partie (strip ligne) = Return partie →
    strip partie ≠ "" →
    accepte (nettoyer (strip partie)) = true →
    effet i ligne st
      {| ensemble_domaines := {[nettoyer (strip partie)]} ∪ ensemble_domaines st;
         manquants := manquants st |}
| effet_rejette :
    strip ligne ≠ "" →
    startswith "#" (strip ligne) = false →
    effet i ligne st
      {| ensemble_domaines := ensemble_domaines st;
         manquants := manquants st ++ [message_manquant i (strip ligne)] |}.

(** The same progress of the loop, seen after the records in [m]. *)
Definition apres (m : list string) (st : chargement) : chargement :=
  {| ensemble_domaines := ensemble_domaines st; manquants := m ++ manquants st |}.

(** Strictly before, in code-point order. *)
Definition avant (a b : string) : Prop := String.ltb a b = true.

(** How many of the five tests a domain passes, and how many of the four
    that have a counter of their own. *)
Definition nb_categories (d : string) : nat :=
  Nat.b2n (est_ministere d) + Nat.b2n (est_region d) + Nat.b2n (est_service d)
  + Nat.b2n (est_prefecture d) + Nat.b2n (est_environnement d).

Definition nb_primaires (d : string) : nat :=
  Nat.b2n (est_ministere d) + Nat.b2n (est_region d) + Nat.b2n (est_service d)
  + Nat.b2n (est_prefecture d).

(** The name held by [categories] when it holds one name only. *)
Definition nom_unique (d : string) : string :=
  if est_ministere d then "ministere"
  else if est_region d then "region"
  else if est_service d then "service"
  else if est_prefecture d then "prefecture"
  else "environnement".

(** The domain passes the test [p] and no other of the five; the domain
    passes more than one of the five. *)
Definition seul (p : string → bool) (d : string) : bool :=
  p d && (nb_categories d =? 1).
Definition plusieurs (d : string) : bool := 1 <? nb_categories d.

(** The test [p] is the only one of the four primary tests that the domain
    passes, and the domain does not pass the environment test. *)
Definition seul_des_cinq (p : string → bool) (d : string) : bool :=
  p d && (nb_primaires d =? 1) && negb (est_environnement d).

(** The file name used by [main]. *)
Definition sitesgouv : string := "sitesgouv.txt".

(** ** The rest of the class *)

Definition extensions_valides : list string :=
  [".gouv.fr"; ".fr"; ".gouv.nc"; ".nc"; ".gouv.pf"; ".pref.gouv.fr"].

(** [est_domaine_valide] *)
Definition est_domaine_valide (domaine : string) : bool :=
  if negb (non_vide domaine) || (String.length domaine <? 6) then false
  else existsb (λ ext, endswith ext domaine) extensions_valides.

(** ** More notions used in the statements *)

(** The line gets a rejection record: it has a candidate token, the cleaned
    token fails the suffix test, and the line is not a comment. *)
Definition est_rejetee (ligne : string) : bool :=
  match extraire_partie (strip ligne) with
  | Return partie =>
      negb (accepte (nettoyer (strip partie))) && negb (startswith "#" (strip ligne))
  | Raise _ => false
  end.

(** The records of the rejected lines of [lignes], numbered from [i]. *)
Fixpoint rejets (i : nat) (lignes : list string) : list string :=
  match lignes with
  | [] => []
  | ligne :: reste =>
      (if est_rejetee ligne then [message_manquant i (strip ligne)] else [])
      ++ rejets (S i) reste
  end.

(** The domain that the line adds to the set, when it adds one. *)
Definition domaine_de (ligne : string) : option string :=
  match extraire_partie (strip ligne) with
  | Return partie =>
      let d := nettoyer (strip partie) in
      if accepte d then Some d else None
  | Raise _ => None
  end.

(** The strings of a list, each followed by a line feed. *)
Definition lignes_de (ds : list string) : string :=
  foldr (λ d reste, d +:+ String LF reste) "" ds.

(** [c] is an ASCII character. *)
Definition est_ascii (c : ascii) : bool := (ord c <? 128)%N.

(** A domain as the loader leaves it, with no [www.] left in it. *)
Definition domaine_net (d : string) : Prop :=
  accepte d = true ∧ str_all propre d = true ∧ lower d = d ∧
  contient "www." d = false.

(** The first element of greatest length, and the first of least length, of
    a list that starts with [x]: the two scans of [max] and [min]. *)
Definition plus_long_de (x : string) (r : list string) : string :=
  fold_left (λ m y, if String.length m <? String.length y then y else m) r x.
Definition plus_court_de (x : string) (r : list string) : string :=
  fold_left (λ m y, if String.length y <? String.length m then y else m) r x.

(** The domain passes the environment test and none of the four others; it
    passes none of the five. *)
Definition environnement_seul (d : string) : bool :=
  est_environnement d && (nb_primaires d =? 0).
Definition sans_categorie (d : string) : bool := nb_categories d =? 0.

(** ** The report: [generer_rapport] *)

(** The text of the report is held as its UTF-8 bytes, the form in which
    [sauvegarder_rapport_complet] writes it.  The strings that come from the
    input file hold one code point in 0..255 for each character and are
    encoded where they enter the report. *)
Definition utf8_char (c : ascii) : string :=
  if (ord c <? 128)%N then String c ""
  else String (ascii_of_N (192 + ord c / 64))
         (String (ascii_of_N (128 + ord c mod 64)) "").

Fixpoint utf8 (s : string) : string :=
  match s with
  | "" => ""
  | String c r => utf8_char c +:+ utf8 r
  end.

(** [s * n] *)
Fixpoint repeter (s : string) (n : nat) : string :=
  match n with
  | O => ""
  | S k => s +:+ repeter s k
  end.

(** [sep.join(l)] *)
Fixpoint joindre (sep : string) (l : list string) : string :=
  match l with
  | [] => ""
  | [x] => x
  | x :: r => x +:+ sep +:+ joindre sep r
  end.

(** [f"{i:2d}"] *)
Definition format_2d (i : nat) : string :=
  if i <? 10 then " " +:+ pretty i else pretty i.

(** [f"{x}"] for the mean: an integer, or a float whose text comes from
    [str_flottant], the conversion of the float [round(somme / n, 1)]. *)
Definition str_nombre (str_flottant : nat → nat → string) (x : nombre) : string :=
  match x with
  | Entier z => pretty z
  | Arrondi1 somme n => str_flottant somme n
  end.

(** The list [rapport] before it is joined.  [maintenant] is the text of
    [datetime.datetime.now().strftime('%Y-%m-%d %H:%M:%S')]. *)
Definition lignes_rapport (str_flottant : nat → nat → string) (maintenant : string)
    (self : analyseur) (a : analyse) : list string :=
  [ "🚀 RAPPORT D'ANALYSE DES DOMAINES DU GOUVERNEMENT FRANÇAIS";
    repeter "=" 60;
    "📅 Date du Rapport: " +:+ maintenant;
    "📁 Fichier Source: " +:+ utf8 (source_file self);
    "";
    "📊 STATISTIQUES RÉSUMÉES";
    "• Nombre de Lignes Source: " +:+ pretty (a_lignes_brutes a);
    "• Domaines Traités: " +:+ pretty (total_domaines a);
    "• Lignes Non Traitées: " +:+ pretty (nombre_manquant a);
    "";
    "🏛️ RÉPARTITION PAR CATÉGORIE";
    "• Uniquement Ministère: " +:+ pretty (ministere_uniquement a);
    "• Uniquement Région: " +:+ pretty (region_uniquement a);
    "• Uniquement Service: " +:+ pretty (service_uniquement a);
    "• Uniquement Préfecture: " +:+ pretty (prefecture_uniquement a);
    "• Multi-Catégories: " +:+ pretty (nombre_chevauchement a);
    "";
    "📏 ANALYSE DE LONGUEUR DES DOMAINES";
    "• Le Plus Long: " +:+ utf8 (domaine_plus_long a);
    "• Le Plus Court: " +:+ utf8 (domaine_plus_court a);
    "• Moyenne: " +:+ str_nombre str_flottant (longueur_moyenne a) +:+ " caractères";
    "" ]
  ++ (if bool_decide (manquants_critiques a ≠ []) then
        ["⚠️ DOMAINES CRITIQUES MANQUANTS"]
        ++ ((λ domaine, "• " +:+ utf8 domaine) <$> manquants_critiques a)
        ++ [""]
      else [])
  ++ (if bool_decide (domaines_manquants self ≠ []) then
        ["❌ LIGNES NON TRAITÉES (Exemples)"]
        ++ ((λ manquant, "• " +:+ utf8 manquant) <$> take 10 (domaines_manquants self))
        ++ (if 10 <? length (domaines_manquants self) then
              ["• ... et " +:+ pretty (length (domaines_manquants self) - 10) +:+ " lignes supplémentaires"]
            else [])
        ++ [""]
      else [])
  ++ [ "🌐 10 Premiers Domaines"; repeter "-" 30 ]
  ++ imap (λ k domaine, format_2d (S k) +:+ ". " +:+ utf8 domaine)
       (take 10 (domaines self))
  ++ [ "....."; repeter "-" 30;
       "Source: https://www.data.gouv.fr/datasets/listes-des-sites-gouv-fr/";
       repeter "-" 30;
       "🌐 TOUS LES DOMAINES";
       repeter "-" 30 ].

(** [generer_rapport] *)
Definition generer_rapport (str_flottant : nat → nat → string) (maintenant : string)
    (self : analyseur) (a : analyse) : string :=
  joindre (String LF "") (lignes_rapport str_flottant maintenant self a).

(** ** Saving the report and the entry point *)

(** What the run has around it: whether a path exists, the files that can
    be read, the text of the exception when the input cannot be read, the
    outcome of writing a text to a path ([None] when it is written, the text
    of the exception otherwise), whether standard output takes the text of
    the [k]-th successful [print] (it does not when it cannot encode it, or
    is closed), the text of the exception when it does not, whether the
    interpreter can flush the standard streams when the run is over, the
    text of a float, and the clock as it reads when the report is printed
    and when it is saved. *)
Record environnement : Type := Environnement {
  existe : string → bool;
  lire : fichiers;
  erreur_lecture : string;
  ecrire : string → string → option string;
  stdout_ok : nat → string → bool;
  erreur_impression : string;
  vidage_ok : bool;
  str_flottant : nat → nat → string;
  heure_affichage : string;
  heure_sauvegarde : string
}.

(** [print(t)], after the texts of [sortie]: [None] when it raises. *)
Definition imprimer (env : environnement) (sortie : list string) (t : string)
    : option (list string) :=
  if stdout_ok env (length sortie) t then Some (sortie ++ [t]) else None.

(** Several [print] in a row: what has been printed, and whether all were. *)
Fixpoint imprimer_tout (env : environnement) (sortie : list string)
    (ts : list string) : list string * bool :=
  match ts with
  | [] => (sortie, true)
  | t :: reste =>
      match imprimer env sortie t with
      | Some sortie' => imprimer_tout env sortie' reste
      | None => (sortie, false)
      end
  end.

(** What a call of [sauvegarder_rapport_complet] leaves: the texts printed
    so far, the file written in full, if any, and whether an exception
    leaves the call. *)
Record sauvegarde : Type := Sauvegarde {
  s_sortie : list string;
  s_fichier : option (string * string);
  s_leve : bool
}.

(** [sauvegarder_rapport_complet]: the report, a line feed, then every
    domain followed by a line feed.  An exception of the [try] block, the
    one of its own [print] too, is reported by the [print] of the handler;
    only an exception of that last [print] leaves the call. *)
Definition sauvegarder_rapport_complet (env : environnement) (self : analyseur)
    (a : analyse) (fichier_sortie : string) (sortie : list string) : sauvegarde :=
  let contenu :=
    generer_rapport (str_flottant env) (heure_sauvegarde env) self a
    +:+ String LF "" +:+ lignes_de (utf8 <$> domaines self) in
  let rapporter (ecrit : option (string * string)) (e : string) :=
    match imprimer env sortie ("❌ Erreur de sauvegarde du rapport: " +:+ e) with
    | Some sortie' => {| s_sortie := sortie'; s_fichier := ecrit; s_leve := false |}
    | None => {| s_sortie := sortie; s_fichier := ecrit; s_leve := true |}
    end in
  match ecrire env fichier_sortie contenu with
  | None =>
      match imprimer env sortie ("✅ Rapport complet sauvegardé: " +:+ utf8 fichier_sortie) with
      | Some sortie' =>
          {| s_sortie := sortie'; s_fichier := Some (fichier_sortie, contenu);
             s_leve := false |}
      | None => rapporter (Some (fichier_sortie, contenu)) (erreur_impression env)
      end
  | Some e => rapporter None e
  end.

Definition fichier_rapport : string := "sitesgouv_rapport.txt".

(** What a call leaves outside the object: the arguments of its [print]
    calls that succeeded, in order, and the file that was written in full,
    if any. *)
Record traces : Type := Traces {
  imprime : list string;
  fichier_ecrit : option (string * string)
}.

(** The end of a call of [main]: what was printed and written, and the
    status it leaves: the argument of [sys.exit], 1 for an exception that
    reaches the top, 0 for a return. *)
Record fin : Type := Fin {
  f_traces : traces;
  statut : Z
}.

Definition arret (sortie : list string) (ecrit : option (string * string))
    (code : Z) : fin :=
  {| f_traces := {| imprime := sortie; fichier_ecrit := ecrit |}; statut := code |}.

(** [main].  [sys.exit(1)] and an exception that reaches the top, the one
    of a [print] too, end the run with status 1; a run that reaches the end
    has status 0.  The [print] of the handler of [charger_domaines] (line 62)
    is made here, where the texts printed are threaded. *)
Definition main (env : environnement) : fin :=
  if negb (existe env sitesgouv) then
    match imprimer env [] "❌ Fichier sitesgouv.txt introuvable!" with
    | Some sortie => arret sortie None 1
    | None => arret [] None 1
    end
  else
    match imprimer_tout env [] ["🔍 Analyse des Domaines du Gouvernement Français en Cours..."; "📁 Chargement des domaines..."] with
    | (sortie, false) => arret sortie None 1
    | (sortie, true) =>
    match charger_domaines (lire env) (init sitesgouv) with
    | Exit code =>
        match imprimer env sortie ("❌ Erreur de lecture du fichier: " +:+ erreur_lecture env) with
        | Some sortie' => arret sortie' None code
        | None => arret sortie None 1
        end
    | Continue analyseur =>
    match imprimer env sortie "📊 Analyse en cours..." with
    | None => arret sortie None 1
    | Some sortie =>
    match analyser analyseur with
    | Raise _ => arret sortie None 1
    | Return a =>
    match imprimer_tout env sortie
            [ String LF "" +:+ repeter "=" 50;
              generer_rapport (str_flottant env) (heure_affichage env) analyseur a;
              repeter "=" 30;
              String LF "" +:+ "💾 Sauvegarde du rapport dans un fichier..." ] with
    | (sortie, false) => arret sortie None 1
    | (sortie, true) =>
    let sv := sauvegarder_rapport_complet env analyseur a fichier_rapport sortie in
    if s_leve sv then arret (s_sortie sv) (s_fichier sv) 1
    else
      match imprimer_tout env (s_sortie sv)
              ([ String LF "" +:+ "🎉 ANALYSE TERMINÉE!";
                 "• Traités: " +:+ pretty (total_domaines a) +:+ " / "
                   +:+ pretty (a_lignes_brutes a) +:+ " domaines";
                 "• Manquants: " +:+ pretty (nombre_manquant a) +:+ " lignes" ]
               ++ (if (0 <? nombre_manquant a)%Z then ["• Détails disponibles dans: sitesgouv_rapport.txt"] else [])) with
      | (sortie, true) => arret sortie (s_fichier sv) 0
      | (sortie, false) => arret sortie (s_fichier sv) 1
      end
    end end end end end.


(** An environment for the examples: the input file holds [contenu], every
    path can be written, and standard output takes the texts that [ok]
    takes. *)
Definition env_exemple (contenu : string) (ok : nat → string → bool)
    : environnement :=
  {| existe := λ p, bool_decide (p = sitesgouv);
     lire := un_fichier sitesgouv contenu;
     erreur_lecture := "";
     ecrire := λ _ _, None;
     stdout_ok := ok;
     erreur_impression := "";
     vidage_ok := true;
     str_flottant := λ _ _, "";
     heure_affichage := "2025-01-01 00:00:00";
     heure_sauvegarde := "2025-01-01 00:00:01" |}.

(** * Properties *)

Lemma bind_return {A B} (a : A) (k : A → outcome B) : Return a ≫= k = k a.
Proof. reflexivity. Qed.

(** ** The primitives on small inputs *)

Example strip_exemple : strip (String TAB "  a b " +:+ String LF "") = "a b".
Proof. reflexivity. Qed.

Example split_exemple : split ("  ab " +:+ String TAB "c  d ") = ["ab"; "c"; "d"].
Proof. reflexivity. Qed.

Example split_blanc : split "   " = [].
Proof. reflexivity. Qed.

Example split_char_exemple :
  split_char TAB ("a b" +:+ String TAB (String TAB "c")) = ["a b"; ""; "c"].
Proof. reflexivity. Qed.

Example replace_exemple : replace "www." "" "www.a.www.b" = "a.b".
Proof. reflexivity. Qed.

Example replace_une_passe : replace "www." "" "wwwww.w.fr" = "www.fr".
Proof. reflexivity. Qed.

Example lower_exemple : lower "WWW.Sante.Gouv.Fr" = "www.sante.gouv.fr".
Proof. reflexivity. Qed.

Example readlines_exemple :
  readlines ("a" +:+ String CR (String LF "b") +:+ String CR "c"
             +:+ nl "" +:+ nl "" +:+ "d")
  = [nl "a"; nl "b"; nl "c"; nl ""; "d"].
Proof. reflexivity. Qed.

Example max_len_premier : max_len ["ab"; "cde"; "fgh"; "i"] = Return "cde".
Proof. reflexivity. Qed.

Example min_len_premier : min_len ["ab"; "c"; "fgh"; "i"] = Return "c".
Proof. reflexivity. Qed.

(** A line of the form [domain TAB description]: the first field is kept. *)
Example ligne_tabulee :
  charger_domaines
    (un_fichier sitesgouv (nl ("WWW.Impots.Gouv.FR" +:+ String TAB "les impots")))
    (init sitesgouv)
  = Continue {| source_file := sitesgouv; lignes_brutes := 1;
                domaines := ["impots.gouv.fr"]; domaines_manquants := [] |}.
Proof. by vm_compute. Qed.

(** A comment fails the suffix test and is not recorded as rejected. *)
Example ligne_commentaire :
  charger_domaines (un_fichier sitesgouv (nl "# comment line")) (init sitesgouv)
  = Continue {| source_file := sitesgouv; lignes_brutes := 1;
                domaines := []; domaines_manquants := [] |}.
Proof. by vm_compute. Qed.

(** [economie.gouv.fr] alone: one ministry, and fourteen critical domains
    missing. *)
Example economie_seul :
  ∃ a, executer (un_fichier sitesgouv (nl "economie.gouv.fr")) sitesgouv
       = Continue (Return a) ∧
       total_domaines a = 1 ∧ ministere_uniquement a = 1 ∧ nombre_ministere a = 1 ∧
       manquants_critiques a = drop 1 domaines_critiques.
Proof. eexists. by vm_compute. Qed.

(** No file: the process ends with status 1. *)
Example fichier_absent :
  charger_domaines (un_fichier sitesgouv "sante.gouv.fr") (init "autre.txt") = Exit 1.
Proof. reflexivity. Qed.

(** ** Strings *)

Section chaines.
Implicit Types (s t p q : string) (c : ascii).

Lemma app_vide_l s : "" +:+ s = s.
Proof. reflexivity. Qed.

Lemma app_cons c s t : String c s +:+ t = String c (s +:+ t).
Proof. reflexivity. Qed.

Lemma non_vide_true s : non_vide s = true ↔ s ≠ "".
Proof. by destruct s. Qed.

Lemma non_vide_false s : non_vide s = false ↔ s = "".
Proof. by destruct s. Qed.

Lemma startswith_spec p s : startswith p s = true ↔ ∃ r, s = p +:+ r.
Proof.
  revert s. induction p as [|a p IH]; intros s; simpl.
  - split; [intros _; by exists s|done].
  - destruct s as [|b s].
    + split; [done|]. by intros [r Hr].
    + rewrite andb_true_iff, bool_decide_eq_true, IH. split.
      * intros [-> [r ->]]. by exists r.
      * intros [r Hr]. rewrite app_cons in Hr. simplify_eq. eauto.
Qed.

Lemma endswith_spec suf s : endswith suf s = true ↔ ∃ p, s = p +:+ suf.
Proof.
  induction s as [|c s IH]; simpl.
  - rewrite orb_false_r, bool_decide_eq_true. split.
    + intros <-. by exists "".
    + intros [[|??] H]; [done|by rewrite app_cons in H].
  - rewrite orb_true_iff, bool_decide_eq_true, IH. split.
    + intros [<-|[p ->]]; [by exists ""|]. by exists (String c p).
    + intros [[|a p] H]; [by left|]. rewrite app_cons in H.
      simplify_eq. right. by exists p.
Qed.

Lemma contient_spec sub s :
  contient sub s = true ↔ ∃ p q, s = p +:+ sub +:+ q.
Proof.
  induction s as [|c s IH]; simpl.
  - rewrite orb_false_r, startswith_spec. split.
    + intros [r ->]. by exists "", r.
    + intros [[|??] [q H]]; [by exists q|by rewrite app_cons in H].
  - rewrite orb_true_iff, startswith_spec, IH. split.
    + intros [[r ->]|(p & q & ->)]; [by exists "", r|].
      by exists (String c p), q.
    + intros ([|a p] & q & H); [left; by exists q|].
      rewrite app_cons in H. simplify_eq. right. by exists p, q.
Qed.

Lemma str_all_filter (f : ascii → bool) s : str_all f (str_filter f s) = true.
Proof.
  induction s as [|c s IH]; [done|]. simpl.
  destruct (f c) eqn:Hc; simpl; [by rewrite Hc|done].
Qed.

Lemma str_all_filter_autre (f g : ascii → bool) s :
  str_all g s = true → str_all g (str_filter f s) = true.
Proof.
  induction s as [|c s IH]; [done|]. simpl.
  intros [Hc Hs]%andb_true_iff. destruct (f c); simpl; auto.
  by rewrite Hc, IH.
Qed.

Lemma lstrip_tete s c r : lstrip s = String c r → char_isspace c = false.
Proof.
  induction s as [|a s IH]; [done|]. simpl.
  destruct (char_isspace a) eqn:Ha; [done|]. by intros [= -> _].
Qed.

Lemma rstrip_tete c r :
  char_isspace c = false → ∃ r', rstrip (String c r) = String c r'.
Proof. intros Hc. simpl. rewrite Hc. destruct (rstrip r); eauto. Qed.

(** A stripped line that is not empty starts with a character that is not
    whitespace. *)
Lemma strip_tete s :
  strip s ≠ "" → ∃ c r, strip s = String c r ∧ char_isspace c = false.
Proof.
  unfold strip. destruct (lstrip s) as [|c r] eqn:Hl; [done|]. intros _.
  pose proof (lstrip_tete _ _ _ Hl) as Hc.
  destruct (rstrip_tete c r Hc) as [r' ->]. eauto.
Qed.

Lemma strip_non_vide c r : char_isspace c = false → strip (String c r) ≠ "".
Proof.
  intros Hc. unfold strip. cbn [lstrip]. rewrite Hc.
  by destruct (rstrip_tete c r Hc) as [r' ->].
Qed.

Lemma split_tete c r :
  char_isspace c = false → ∃ w ws, split (String c r) = String c w :: ws.
Proof.
  intros Hc. cbn [split]. rewrite Hc. destruct r as [|c' r']; [eauto|].
  destruct (char_isspace c'); [eauto|]. destruct (split _); eauto.
Qed.

Lemma split_char_tete sep c r :
  c ≠ sep → ∃ w ws, split_char sep (String c r) = String c w :: ws.
Proof.
  intros Hc. cbn [split_char]. rewrite bool_decide_eq_false_2 by done.
  destruct (split_char sep r); eauto.
Qed.

(** *** Cleaning *)

Lemma char_lower_minuscule c : minuscule (char_lower c) = true.
Proof. by destruct c as [[] [] [] [] [] [] [] []]; vm_compute. Qed.

Lemma char_lower_propre c : propre c = true → propre (char_lower c) = true.
Proof. by destruct c as [[] [] [] [] [] [] [] []]; vm_compute. Qed.

Lemma char_lower_id c : minuscule c = true → char_lower c = c.
Proof. unfold minuscule, char_lower. by destruct (char_isupper c). Qed.

Lemma str_all_lower s : str_all minuscule (lower s) = true.
Proof.
  unfold lower.
  induction s as [|c s IH]; [done|]. simpl.
  by rewrite char_lower_minuscule, IH.
Qed.

Lemma lower_propre s : str_all propre s = true → str_all propre (lower s) = true.
Proof.
  unfold lower.
  induction s as [|c s IH]; [done|]. simpl.
  intros [Hc Hs]%andb_true_iff. by rewrite char_lower_propre, IH.
Qed.

Lemma lower_id s : str_all minuscule s = true → lower s = s.
Proof.
  unfold lower.
  induction s as [|c s IH]; [done|]. simpl.
  intros [Hc Hs]%andb_true_iff. by rewrite char_lower_id, IH.
Qed.

(** Removing text keeps every property of the characters. *)
Lemma str_all_replace_go (f : ascii → bool) old s :
  str_all f s = true → ∀ k, str_all f (replace_go old "" k s) = true.
Proof.
  induction s as [|c s IH]; [done|]. cbn [str_all].
  intros [Hc Hs]%andb_true_iff [|k]; cbn [replace_go]; [|by apply IH].
  destruct (startswith old (String c s)).
  - rewrite app_vide_l. by apply IH.
  - cbn [str_all]. by rewrite Hc, IH.
Qed.

Lemma str_filter_id (f : ascii → bool) s : str_all f s = true → str_filter f s = s.
Proof.
  induction s as [|c s IH]; [done|]. simpl.
  intros [Hc Hs]%andb_true_iff. by rewrite Hc, IH.
Qed.

End chaines.

(** ** The loader, line by line *)

Section chargement_lignes.
Implicit Types (ligne : string) (st : chargement) (i : nat).

Lemma TAB_isspace : char_isspace TAB = true.
Proof. reflexivity. Qed.

(** On a line that starts with a character that is not whitespace, neither
    branch of the extraction raises, and the token starts with it. *)
Lemma extraire_partie_tete c r :
  char_isspace c = false →
  ∃ w, extraire_partie (String c r) = Return (String c w).
Proof.
  intros Hc. unfold extraire_partie.
  destruct (contient_char TAB (String c r)).
  - destruct (split_char_tete TAB c r) as (w & ws & ->); [|by exists w].
    intros ->. by rewrite TAB_isspace in Hc.
  - destruct (split_tete c r Hc) as (w & ws & ->). by exists w.
Qed.

Lemma traiter_ligne_effet i ligne st :
  ∃ st', traiter_ligne i ligne st = Return st' ∧ effet i ligne st st' ∧
         (strip ligne = "" → st' = st).
Proof.
  unfold traiter_ligne.
  destruct (non_vide (strip ligne)) eqn:Hnv; cbn [negb].
  2:{ exists st. split_and!; [done|constructor|done]. }
  apply non_vide_true in Hnv.
  destruct (strip_tete ligne Hnv) as (c & r & Hs & Hc).
  assert (∃ w, extraire_partie (strip ligne) = Return (String c w)) as [w Hw].
  { rewrite Hs. by apply extraire_partie_tete. }
  rewrite Hw.
  pose proof (strip_non_vide c w Hc) as Hp.
  rewrite bind_return, (proj2 (non_vide_true _) Hp).
  destruct (accepte _) eqn:Hacc.
  - eexists. split_and!; [done| |done]. by apply effet_accepte.
  - destruct (startswith "#" (strip ligne)) eqn:Hdiese; cbn [negb andb].
    { exists st. split_and!; [done|constructor|done]. }
    destruct (isspace (strip ligne)) eqn:Hsp; cbn [negb andb].
    { exists st. split_and!; [done|constructor|done]. }
    eexists. split_and!; [done| |done]. by apply effet_rejette.
Qed.

(** The loop never raises. *)
Lemma boucle_lignes_totale lignes : ∀ i st, ∃ st', boucle_lignes i lignes st = Return st'.
Proof.
  induction lignes as [|ligne lignes IH]; intros i st; simpl; [eauto|].
  destruct (traiter_ligne_effet i ligne st) as (st1 & -> & _). simpl. apply IH.
Qed.

End chargement_lignes.

(** ** The loader as a whole *)

Section chargement_fichier.
Implicit Types (fs : fichiers) (self : analyseur) (st : chargement).

(** When the file can be read, the call returns, with the result of the loop
    entered with an empty set and with the list the object already holds. *)
Lemma charger_domaines_lu fs self contenu :
  fs (source_file self) = Some contenu →
  ∃ st,
    boucle_lignes 1 (readlines contenu)
      {| ensemble_domaines := ∅; manquants := domaines_manquants self |} = Return st ∧
    charger_domaines fs self =
      Continue {| source_file := source_file self;
                  lignes_brutes := nb_lignes_brutes (readlines contenu);
                  domaines := sorted (elements (ensemble_domaines st));
                  domaines_manquants := manquants st |}.
Proof.
  intros Hfs.
  destruct (boucle_lignes_totale (readlines contenu) 1
    {| ensemble_domaines := ∅; manquants := domaines_manquants self |}) as [st Hst].
  exists st. split; [done|].
  unfold charger_domaines, charger_essai, open_readlines.
  rewrite Hfs, bind_return, Hst. done.
Qed.

Lemma charger_domaines_illisible fs self :
  fs (source_file self) = None → charger_domaines fs self = Exit 1.
Proof.
  intros Hfs. unfold charger_domaines, charger_essai, open_readlines.
  by rewrite Hfs.
Qed.

Lemma sorted_elem_of (X : gset string) d : d ∈ sorted (elements X) ↔ d ∈ X.
Proof.
  unfold sorted. rewrite merge_sort_Permutation. apply elem_of_elements.
Qed.

Lemma sorted_length (X : gset string) : length (sorted (elements X)) = size X.
Proof. unfold sorted. by rewrite merge_sort_Permutation. Qed.

(** Each line that is not blank adds at most one domain to the set. *)
Lemma boucle_lignes_taille lignes : ∀ i st st',
  boucle_lignes i lignes st = Return st' →
  size (ensemble_domaines st') ≤ size (ensemble_domaines st) + nb_lignes_brutes lignes.
Proof.
  unfold nb_lignes_brutes.
  induction lignes as [|ligne lignes IH]; intros i st st'; cbn [boucle_lignes].
  - intros [= <-]. lia.
  - destruct (traiter_ligne_effet i ligne st) as (st1 & -> & He & Hvide).
    rewrite bind_return. intros Hb%IH. rewrite filter_cons.
    destruct (decide (non_vide (strip ligne) = true)) as [Hnv|Hnv].
    + cbn [length]. etrans; [exact Hb|].
      assert (size (ensemble_domaines st1) ≤ S (size (ensemble_domaines st))); [|lia].
      destruct He as [|partie _ _ _ _|_ _]; cbn [ensemble_domaines]; [lia| |lia].
      rewrite size_union_alt, size_singleton.
      assert (ensemble_domaines st ∖ {[nettoyer (strip partie)]} ⊆ ensemble_domaines st)
        as Hsub.
      { intros x. rewrite elem_of_difference. tauto. }
      apply subseteq_size in Hsub. lia.
    + rewrite Hvide in Hb; [done|].
      apply non_vide_false. by destruct (non_vide (strip ligne)).
Qed.

End chargement_fichier.

(** ** The analyser *)

Section analyse_domaines.
Implicit Types (d : string) (k : compteurs) (self : analyseur).

Lemma categories_taille d : size (categories_de d) = nb_categories d.
Proof.
  unfold categories_de, nb_categories.
  by destruct (est_ministere d), (est_region d), (est_service d),
    (est_prefecture d), (est_environnement d); vm_compute.
Qed.

Lemma categories_unique d :
  nb_categories d = 1 → elements (categories_de d) = [nom_unique d].
Proof.
  unfold categories_de, nb_categories, nom_unique.
  destruct (est_ministere d), (est_region d), (est_service d),
    (est_prefecture d), (est_environnement d); cbn [Nat.b2n Nat.add];
    intros; try discriminate; by vm_compute.
Qed.

(** The effect of one turn of the loop on the five counters. *)
Lemma classer_spec d k :
  classer d k = Return
    {| c_ministere := c_ministere k + Nat.b2n (seul est_ministere d);
       c_region := c_region k + Nat.b2n (seul est_region d);
       c_service := c_service k + Nat.b2n (seul est_service d);
       c_prefecture := c_prefecture k + Nat.b2n (seul est_prefecture d);
       c_chevauchement := c_chevauchement k + Nat.b2n (plusieurs d) |}.
Proof.
  unfold classer, seul, plusieurs. rewrite categories_taille.
  destruct (nb_categories d =? 1) eqn:H1.
  - apply Nat.eqb_eq in H1. rewrite (categories_unique d H1), H1.
    cbn [premier]. rewrite bind_return. unfold nom_unique.
    revert H1. unfold nb_categories. destruct k.
    destruct (est_ministere d), (est_region d), (est_service d),
      (est_prefecture d), (est_environnement d); cbn [Nat.b2n Nat.add];
      intros; try discriminate; cbn; by rewrite ?Nat.add_0_r.
  - destruct k. rewrite !andb_false_r. cbn [Nat.b2n].
    destruct (1 <? nb_categories d); cbn; by rewrite ?Nat.add_0_r.
Qed.

Lemma compter_cons (p : string → bool) d l :
  compter p (d :: l) = Nat.b2n (p d) + compter p l.
Proof.
  unfold compter. rewrite filter_cons.
  destruct (decide (p d = true)) as [->|Hp]; [done|].
  by destruct (p d).
Qed.

Lemma boucle_domaines_spec l : ∀ k,
  boucle_domaines l k = Return
    {| c_ministere := c_ministere k + compter (seul est_ministere) l;
       c_region := c_region k + compter (seul est_region) l;
       c_service := c_service k + compter (seul est_service) l;
       c_prefecture := c_prefecture k + compter (seul est_prefecture) l;
       c_chevauchement := c_chevauchement k + compter plusieurs l |}.
Proof.
  induction l as [|d l IH]; intros k; cbn [boucle_domaines].
  - destruct k. unfold compter. cbn. by rewrite !Nat.add_0_r.
  - rewrite classer_spec, bind_return, IH. cbn [c_ministere c_region c_service
      c_prefecture c_chevauchement]. rewrite !compter_cons. f_equal. f_equal; lia.
Qed.

(** [analyser] never raises, and this is what it returns. *)
Lemma analyser_retour self :
  let ds := domaines self in
  ∃ a, analyser self = Return a ∧
    total_domaines a = length ds ∧
    a_lignes_brutes a = lignes_brutes self ∧
    nombre_manquant a = (Z.of_nat (lignes_brutes self) - Z.of_nat (length ds))%Z ∧
    ministere_uniquement a = compter (seul est_ministere) ds ∧
    region_uniquement a = compter (seul est_region) ds ∧
    service_uniquement a = compter (seul est_service) ds ∧
    prefecture_uniquement a = compter (seul est_prefecture) ds ∧
    nombre_chevauchement a = compter plusieurs ds ∧
    nombre_developpement a = compter (contient "developpement-durable") ds ∧
    (ds = [] →
       domaine_plus_long a = "" ∧ domaine_plus_court a = "" ∧
       longueur_moyenne a = Entier 0).
Proof.
  intros ds. unfold analyser. fold ds.
  rewrite (boucle_domaines_spec ds compteurs_zero).
  destruct ds as [|d l].
  - rewrite bool_decide_eq_false_2 by (by intros []).
    rewrite !bind_return. eexists. split; [done|]. by split_and!.
  - rewrite bool_decide_eq_true_2 by done.
    cbn [max_len min_len length moyenne_arrondie]. rewrite !bind_return.
    eexists. split; [done|]. by split_and!.
Qed.

End analyse_domaines.

(** ** Order of the accepted sequence *)

Section ordre.

Lemma le_different_avant a b : String.le a b → a ≠ b → avant a b.
Proof.
  unfold String.le, avant, String.leb, String.ltb. intros Hle Hne.
  destruct (String.compare a b) eqn:Hc; [|done|done].
  by apply String.compare_eq_iff in Hc.
Qed.

Lemma StronglySorted_strict (l : list string) :
  StronglySorted String.le l → NoDup l → StronglySorted avant l.
Proof.
  induction 1 as [|x l Hl IH Hx]; intros Hnd; [constructor|].
  apply NoDup_cons in Hnd as [Hnotin Hnd]. constructor; [by apply IH|].
  apply Forall_forall. intros y Hy.
  apply le_different_avant; [by eapply Forall_forall in Hx|].
  by intros ->.
Qed.

Lemma sorted_strict (X : gset string) :
  StronglySorted avant (sorted (elements X)) ∧ NoDup (sorted (elements X)).
Proof.
  assert (NoDup (sorted (elements X))) as Hnd.
  { unfold sorted. rewrite merge_sort_Permutation. apply NoDup_elements. }
  split; [|done]. apply StronglySorted_strict; [|done].
  apply (StronglySorted_merge_sort _).
Qed.

End ordre.

(** ** The rejection list *)

Section rejets.
Implicit Types (st : chargement) (m : list string).

Lemma traiter_ligne_apres m i ligne st st' :
  traiter_ligne i ligne st = Return st' →
  traiter_ligne i ligne (apres m st) = Return (apres m st').
Proof.
  unfold traiter_ligne.
  destruct (negb _); [by intros [= <-]|].
  destruct (extraire_partie _); [|done]. rewrite !bind_return.
  destruct (non_vide (strip a)); [|by intros [= <-]].
  destruct (accepte _); [by intros [= <-]|].
  destruct (_ && _); intros [= <-]; [|done].
  unfold apres. cbn [ensemble_domaines manquants]. by rewrite <-app_assoc.
Qed.

Lemma boucle_lignes_apres m lignes : ∀ i st st',
  boucle_lignes i lignes st = Return st' →
  boucle_lignes i lignes (apres m st) = Return (apres m st').
Proof.
  induction lignes as [|ligne lignes IH]; intros i st st'; cbn [boucle_lignes].
  - by intros [= <-].
  - destruct (traiter_ligne i ligne st) as [st1|] eqn:H1; [|done].
    rewrite (traiter_ligne_apres m _ _ _ _ H1), !bind_return. apply IH.
Qed.

(** Every record added by the loop is the message for one of its lines. *)
Lemma boucle_lignes_messages lignes : ∀ i st st',
  boucle_lignes i lignes st = Return st' →
  ∀ r, r ∈ manquants st' →
    r ∈ manquants st ∨
    ∃ k ligne, lignes !! k = Some ligne ∧ strip ligne ≠ "" ∧
               r = message_manquant (i + k) (strip ligne).
Proof.
  induction lignes as [|ligne lignes IH]; intros i st st'; cbn [boucle_lignes].
  - intros [= <-] r Hr. by left.
  - destruct (traiter_ligne_effet i ligne st) as (st1 & -> & He & _).
    rewrite bind_return. intros Hb r Hr.
    destruct (IH _ _ _ Hb r Hr) as [Hr1|(k & l & Hk & Hl & ->)].
    + destruct He as [|partie _ _ _ _|Hnv _]; cbn [manquants] in Hr1;
        [by left..|].
      apply elem_of_app in Hr1 as [?|Hr1]; [by left|].
      apply list_elem_of_singleton in Hr1 as ->.
      right. exists 0, ligne. by rewrite Nat.add_0_r.
    + right. exists (S k), l. split_and!; [done..|]. f_equal. lia.
Qed.

End rejets.

(** ** Removing [www.] in one pass *)

Section remplacement_www.
Implicit Types (s r t : string) (c : ascii).

Lemma replace_www_debut r :
  replace "www." "" (String "w" (String "w" (String "w" (String "." r))))
  = replace "www." "" r.
Proof. reflexivity. Qed.

Lemma replace_www_autre c r :
  startswith "www." (String c r) = false →
  replace "www." "" (String c r) = String c (replace "www." "" r).
Proof. unfold replace. cbn [replace_go]. by intros ->. Qed.

(** The first character kept by the scan is the first character of the
    text, unless the text starts with a match. *)
Lemma replace_www_tete r c t :
  replace "www." "" r = String c t →
  startswith "www." r = true ∨ ∃ r1, r = String c r1 ∧ t = replace "www." "" r1.
Proof.
  destruct r as [|a r1]; [done|].
  destruct (startswith "www." (String a r1)) eqn:Hsw; [by left|].
  rewrite replace_www_autre by done. intros [= -> <-]. right. by exists r1.
Qed.

Lemma contient_queue sub c r : contient sub (String c r) = false → contient sub r = false.
Proof. cbn [contient]. by intros [_ ?]%orb_false_iff. Qed.

Lemma startswith_www r :
  startswith "www." r = true →
  ∃ r', r = String "w" (String "w" (String "w" (String "." r'))).
Proof. intros [r' ->]%startswith_spec. by exists r'. Qed.

Lemma replace_www_borne n : ∀ s,
  String.length s ≤ n →
  contient "wwww" s = false →
  contient "www." (replace "www." "" s) = false.
Proof.
  induction n as [|n IH]; intros s Hn Hw.
  { destruct s; [done|]. cbn in Hn. lia. }
  destruct s as [|c r]; [done|].
  destruct (startswith "www." (String c r)) eqn:Hsw.
  - apply startswith_www in Hsw as [r' Hr']. rewrite Hr' in *.
    rewrite replace_www_debut. apply IH.
    + cbn in Hn. lia.
    + by do 4 apply contient_queue in Hw.
  - rewrite replace_www_autre by done. cbn [contient].
    cbn in Hn. rewrite (IH r) by (lia || by eapply contient_queue).
    rewrite orb_false_r.
    destruct (startswith "www." (String c (replace "www." "" r))) eqn:Hst; [|done].
    exfalso. apply startswith_www in Hst as [t [= -> Ht]].
    apply replace_www_tete in Ht as [[r' ->]%startswith_www|(r1 & -> & Ht)].
    { by vm_compute in Hw. }
    symmetry in Ht. apply replace_www_tete in Ht as [[r' ->]%startswith_www|(r2 & -> & Ht)].
    { by vm_compute in Hw. }
    symmetry in Ht. apply replace_www_tete in Ht as [[r' ->]%startswith_www|(r3 & -> & Ht)].
    { by vm_compute in Hw. }
    by vm_compute in Hsw.
Qed.

(** A token without four [w] in a row, and made of characters that the
    cleaning keeps, is left without any [www.]. *)
Lemma nettoyer_sans_www t :
  str_all propre t = true →
  contient "wwww" (lower t) = false →
  contient "www." (nettoyer t) = false.
Proof.
  intros Hp Hw. unfold nettoyer.
  rewrite str_filter_id.
  - by apply (replace_www_borne (String.length (lower t))).
  - apply str_all_replace_go. by apply lower_propre.
Qed.

End remplacement_www.

(** ** What the accepted domains are made of *)

Section domaines_acceptes.
Implicit Types (st : chargement) (d t : string).

Lemma nettoyer_minuscule t : str_all minuscule (nettoyer t) = true.
Proof.
  unfold nettoyer. apply str_all_filter_autre, str_all_replace_go, str_all_lower.
Qed.

Lemma nettoyer_propre t : str_all propre (nettoyer t) = true.
Proof. apply str_all_filter. Qed.

Lemma accepte_suffixe d :
  accepte d = true → ∃ tld p, tld ∈ tld_valides ∧ d = p +:+ tld.
Proof.
  unfold accepte. intros (tld & Hin & [p ->]%endswith_spec)%existsb_exists.
  exists tld, p. by rewrite list_elem_of_In.
Qed.

(** Every domain added by the loop is the cleaned token of one of the lines. *)
Lemma boucle_lignes_domaines lignes : ∀ i st st',
  boucle_lignes i lignes st = Return st' →
  ∀ d, d ∈ ensemble_domaines st' →
    d ∈ ensemble_domaines st ∨
    ∃ ligne partie, ligne ∈ lignes ∧
      extraire_partie (strip ligne) = Return partie ∧
      accepte (nettoyer (strip partie)) = true ∧
      d = nettoyer (strip partie).
Proof.
  induction lignes as [|ligne lignes IH]; intros i st st'; cbn [boucle_lignes].
  - intros [= <-] d Hd. by left.
  - destruct (traiter_ligne_effet i ligne st) as (st1 & -> & He & _).
    rewrite bind_return. intros Hb d Hd.
    destruct (IH _ _ _ Hb d Hd) as [Hd1|(l & p & Hl & Hp & Ha & ->)].
    + destruct He as [|partie _ Hp _ Ha|_ _]; cbn [ensemble_domaines] in Hd1;
        [by left| |by left].
      apply elem_of_union in Hd1 as [Hd1|?]; [|by left].
      apply elem_of_singleton in Hd1 as ->.
      right. exists ligne, partie. split_and!; [left|done..].
    + right. exists l, p. split_and!; [by right|done..].
Qed.

(** The call returns only when the file was read. *)
Lemma charger_domaines_continue fs self self' :
  charger_domaines fs self = Continue self' →
  ∃ contenu st,
    fs (source_file self) = Some contenu ∧
    boucle_lignes 1 (readlines contenu)
      {| ensemble_domaines := ∅; manquants := domaines_manquants self |} = Return st ∧
    self' = {| source_file := source_file self;
               lignes_brutes := nb_lignes_brutes (readlines contenu);
               domaines := sorted (elements (ensemble_domaines st));
               domaines_manquants := manquants st |}.
Proof.
  destruct (fs (source_file self)) as [contenu|] eqn:Hfs.
  - destruct (charger_domaines_lu fs self contenu Hfs) as (st & Hst & ->).
    intros [= <-]. by exists contenu, st.
  - by rewrite charger_domaines_illisible.
Qed.

End domaines_acceptes.

(** * The properties of the specification *)

(** C7: whatever the file holds, the sequence of accepted domains left by
    the loader is strictly ascending in code-point order and has no
    duplicate. *)
Theorem C7_sequence_triee fs self self' :
  charger_domaines fs self = Continue self' →
  StronglySorted avant (domaines self') ∧ NoDup (domaines self').
Proof.
  intros (contenu & st & _ & _ & ->)%charger_domaines_continue.
  apply sorted_strict.
Qed.

Lemma C7_sequence_triee_temoin :
  StronglySorted avant ["economie.gouv.fr"; "sante.gouv.fr"] ∧
  NoDup ["economie.gouv.fr"; "sante.gouv.fr"].
Proof.
  apply (C7_sequence_triee
    (un_fichier sitesgouv (nl "sante.gouv.fr" +:+ nl "economie.gouv.fr" +:+ nl "Sante.gouv.fr"))
    (init sitesgouv)
    {| source_file := sitesgouv; lignes_brutes := 3;
       domaines := ["economie.gouv.fr"; "sante.gouv.fr"];
       domaines_manquants := [] |}).
  vm_compute. reflexivity.
Defined.

(** C9: the loader never accepts more domains than the file has lines that
    are not blank, so the count of missing lines computed by the analyser is
    never negative. *)
Theorem C9_acceptes_au_plus_lignes fs self self' :
  charger_domaines fs self = Continue self' →
  length (domaines self') ≤ lignes_brutes self' ∧
  ∃ a, analyser self' = Return a ∧
       total_domaines a ≤ a_lignes_brutes a ∧
       (0 ≤ nombre_manquant a)%Z.
Proof.
  intros (contenu & st & _ & Hst & ->)%charger_domaines_continue.
  apply boucle_lignes_taille in Hst. cbn [ensemble_domaines] in Hst.
  rewrite size_empty in Hst. cbn [domaines lignes_brutes].
  rewrite sorted_length. split; [lia|].
  destruct (analyser_retour {| source_file := source_file self;
    lignes_brutes := nb_lignes_brutes (readlines contenu);
    domaines := sorted (elements (ensemble_domaines st));
    domaines_manquants := manquants st |}) as (a & Ha & Ht & Hl & Hm & _).
  cbn [domaines lignes_brutes] in *. rewrite sorted_length in *.
  exists a. split; [done|]. lia.
Qed.

Lemma C9_acceptes_au_plus_lignes_temoin :
  length ["sante.gouv.fr"] ≤ 3 ∧
  ∃ a, analyser {| source_file := sitesgouv; lignes_brutes := 3;
                   domaines := ["sante.gouv.fr"];
                   domaines_manquants := ["Ligne 3: notadomain..."] |} = Return a ∧
       total_domaines a ≤ a_lignes_brutes a ∧ (0 ≤ nombre_manquant a)%Z.
Proof.
  apply (C9_acceptes_au_plus_lignes
    (un_fichier sitesgouv (nl "sante.gouv.fr" +:+ nl "www.sante.gouv.fr" +:+ nl "notadomain"))
    (init sitesgouv)
    {| source_file := sitesgouv; lignes_brutes := 3;
       domaines := ["sante.gouv.fr"];
       domaines_manquants := ["Ligne 3: notadomain..."] |}).
  vm_compute. reflexivity.
Defined.

(** C10: once the file has been read, nothing in the treatment of a line can
    raise.  A line that is not blank once stripped has a first
    whitespace-separated token, which is not empty; the extraction, whichever
    branch it takes, returns a token that is not blank; one turn of the loop
    and the whole loop return; and [charger_domaines] exits, with status 1,
    exactly when the file cannot be opened or read. *)
Theorem C10_traitement_total :
  (∀ ligne, strip ligne = "" ∨
     ∃ w ws, split (strip ligne) = w :: ws ∧ w ≠ "") ∧
  (∀ ligne, strip ligne = "" ∨
     ∃ partie, extraire_partie (strip ligne) = Return partie ∧
               partie ≠ "" ∧ strip partie ≠ "") ∧
  (∀ i ligne st, ∃ st', traiter_ligne i ligne st = Return st') ∧
  (∀ i lignes st, ∃ st', boucle_lignes i lignes st = Return st') ∧
  (∀ fs self,
     match fs (source_file self) with
     | Some _ => ∃ self', charger_domaines fs self = Continue self'
     | None => charger_domaines fs self = Exit 1
     end).
Proof.
  split_and!.
  - intros ligne. destruct (decide (strip ligne = "")) as [|Hnv]; [by left|right].
    destruct (strip_tete ligne Hnv) as (c & r & -> & Hc).
    destruct (split_tete c r Hc) as (w & ws & ->). by exists (String c w), ws.
  - intros ligne. destruct (decide (strip ligne = "")) as [|Hnv]; [by left|right].
    destruct (strip_tete ligne Hnv) as (c & r & -> & Hc).
    destruct (extraire_partie_tete c r Hc) as [w ->].
    exists (String c w). split_and!; [done..|]. by apply strip_non_vide.
  - intros i ligne st.
    destruct (traiter_ligne_effet i ligne st) as (st' & ? & _). by exists st'.
  - intros i lignes st. apply boucle_lignes_totale.
  - intros fs self. destruct (fs (source_file self)) as [contenu|] eqn:Hfs.
    + destruct (charger_domaines_lu fs self contenu Hfs) as (st & _ & ->). eauto.
    + by apply charger_domaines_illisible.
Qed.

(** A domain moves at most one of the five counters. *)
Lemma un_compteur_au_plus d :
  Nat.b2n (seul est_ministere d) + Nat.b2n (seul est_region d)
  + Nat.b2n (seul est_service d) + Nat.b2n (seul est_prefecture d)
  + Nat.b2n (plusieurs d) ≤ 1.
Proof.
  unfold seul, plusieurs, nb_categories.
  by destruct (est_ministere d), (est_region d), (est_service d),
    (est_prefecture d), (est_environnement d); vm_compute; lia.
Qed.

Lemma compteurs_bornes l :
  compter (seul est_ministere) l + compter (seul est_region) l
  + compter (seul est_service) l + compter (seul est_prefecture) l
  + compter plusieurs l ≤ length l.
Proof.
  induction l as [|d l IH]; [done|]. rewrite !compter_cons. cbn [length].
  pose proof (un_compteur_au_plus d). lia.
Qed.

(** C8: for every sequence of domains, [analyser] returns, and the four
    "uniquement" counters and the overlap counter add up to at most the
    number of domains. *)
Theorem C8_compteurs_au_plus_total self :
  ∃ a, analyser self = Return a ∧
       ministere_uniquement a + region_uniquement a + service_uniquement a
       + prefecture_uniquement a + nombre_chevauchement a ≤ total_domaines a.
Proof.
  destruct (analyser_retour self)
    as (a & Ha & Ht & _ & _ & Hm & Hr & Hs & Hp & Hc & _).
  exists a. split; [done|]. rewrite Ht, Hm, Hr, Hs, Hp, Hc.
  apply compteurs_bornes.
Qed.

(** C6: when no domain was accepted, [analyser] returns (no exception, no
    division), with the empty string for the longest and for the shortest
    domain and the integer 0 for the mean length; and on a file without any
    line the loader returns and the analysis has 0 for the raw line count,
    for the number of domains and for the missing count. *)
Theorem C6_sequence_vide :
  (∀ self, domaines self = [] →
     ∃ a, analyser self = Return a ∧
          domaine_plus_long a = "" ∧ domaine_plus_court a = "" ∧
          longueur_moyenne a = Entier 0) ∧
  (∀ fs self, fs (source_file self) = Some "" →
     ∃ self' a, charger_domaines fs self = Continue self' ∧
          analyser self' = Return a ∧
          a_lignes_brutes a = 0 ∧ total_domaines a = 0 ∧
          nombre_manquant a = 0%Z ∧
          domaine_plus_long a = "" ∧ domaine_plus_court a = "" ∧
          longueur_moyenne a = Entier 0).
Proof.
  split.
  - intros self Hvide.
    destruct (analyser_retour self) as (a & Ha & Hrest).
    exists a. split; [done|]. by apply Hrest.
  - intros fs self Hfs.
    destruct (charger_domaines_lu fs self "" Hfs) as (st & [= <-] & ->).
    eexists.
    destruct (analyser_retour {| source_file := source_file self;
      lignes_brutes := nb_lignes_brutes (readlines "");
      domaines := sorted (elements (∅ : gset string));
      domaines_manquants := domaines_manquants self |})
      as (a & Ha & Ht & Hl & Hm & Hrest).
    exists a. cbn [domaines lignes_brutes ensemble_domaines manquants] in *.
    rewrite elements_empty in *.
    split_and!; [done|done|done|done|by rewrite Hm|..]; by apply Hrest.
Qed.

Lemma C6_sequence_vide_temoin :
  (∃ a, analyser (init sitesgouv) = Return a ∧
        domaine_plus_long a = "" ∧ domaine_plus_court a = "" ∧
        longueur_moyenne a = Entier 0) ∧
  (∃ self' a, charger_domaines (un_fichier sitesgouv "") (init sitesgouv) = Continue self' ∧
        analyser self' = Return a ∧
        a_lignes_brutes a = 0 ∧ total_domaines a = 0 ∧ nombre_manquant a = 0%Z ∧
        domaine_plus_long a = "" ∧ domaine_plus_court a = "" ∧
        longueur_moyenne a = Entier 0).
Proof.
  split.
  - apply (proj1 C6_sequence_vide (init sitesgouv)). reflexivity.
  - apply (proj2 C6_sequence_vide (un_fichier sitesgouv "") (init sitesgouv)).
    reflexivity.
Defined.

(** C5: a file made of the single line [notadomain], with or without its
    line feed, loaded by a fresh object, gives no accepted domain and the one
    rejection record [Ligne 1: notadomain...]; and in general every
    rejection record is the word [Ligne], the 1-based number of a line of
    the file, a colon, and the first 50 characters of that line stripped,
    always followed by three dots. *)
Theorem C5_lignes_rejetees :
  (∀ fs path contenu,
     contenu = "notadomain" ∨ contenu = nl "notadomain" →
     fs path = Some contenu →
     charger_domaines fs (init path) =
       Continue {| source_file := path; lignes_brutes := 1; domaines := [];
                   domaines_manquants := ["Ligne 1: notadomain..."] |}) ∧
  (∀ fs path contenu self' r,
     fs path = Some contenu →
     charger_domaines fs (init path) = Continue self' →
     r ∈ domaines_manquants self' →
     ∃ k ligne, readlines contenu !! k = Some ligne ∧
       r = "Ligne " +:+ pretty (S k) +:+ ": "
           +:+ str_take 50 (strip ligne) +:+ "...").
Proof.
  split.
  - intros fs path contenu Hc Hfs.
    unfold charger_domaines, charger_essai, open_readlines.
    cbn [source_file init]. rewrite Hfs.
    by destruct Hc as [-> | ->]; vm_compute.
  - intros fs path contenu self' r Hfs Hch Hr.
    apply charger_domaines_continue in Hch as (contenu' & st & Hfs' & Hst & ->).
    cbn [source_file init] in Hfs'. rewrite Hfs in Hfs'. injection Hfs' as <-.
    cbn [domaines_manquants] in Hr.
    destruct (boucle_lignes_messages _ _ _ _ Hst r Hr)
      as [Hvide|(k & ligne & Hk & _ & ->)].
    + cbn [manquants domaines_manquants init] in Hvide. by apply elem_of_nil in Hvide.
    + by exists k, ligne.
Qed.

Lemma C5_lignes_rejetees_temoin :
  charger_domaines (un_fichier sitesgouv (nl "notadomain")) (init sitesgouv) =
    Continue {| source_file := sitesgouv; lignes_brutes := 1; domaines := [];
                domaines_manquants := ["Ligne 1: notadomain..."] |} ∧
  ∃ k ligne,
    readlines (nl "sante.gouv.fr" +:+
               nl "  une ligne de plus de cinquante caracteres, sans aucun domaine reconnu  ")
      !! k = Some ligne ∧
    "Ligne 2: une ligne de plus de cinquante caracteres, sans au..." =
      "Ligne " +:+ pretty (S k) +:+ ": " +:+ str_take 50 (strip ligne) +:+ "...".
Proof.
  split.
  - apply (proj1 C5_lignes_rejetees (un_fichier sitesgouv (nl "notadomain"))
      sitesgouv (nl "notadomain")); [by right|reflexivity].
  - apply (proj2 C5_lignes_rejetees
      (un_fichier sitesgouv
         (nl "sante.gouv.fr" +:+
          nl "  une ligne de plus de cinquante caracteres, sans aucun domaine reconnu  "))
      sitesgouv _
      {| source_file := sitesgouv; lignes_brutes := 2;
         domaines := ["sante.gouv.fr"];
         domaines_manquants :=
           ["Ligne 2: une ligne de plus de cinquante caracteres, sans au..."] |});
      [reflexivity|vm_compute; reflexivity|left].
Defined.

(** C2, as stated, fails: the line [wwwww.w.fr] is accepted as [www.fr].
    The scan removes the [www.] found from the third character on and does
    not look at the text it leaves, which is [ww] followed by [w.fr]. *)
Lemma C2_contre_exemple :
  charger_domaines (un_fichier sitesgouv (nl "wwwww.w.fr")) (init sitesgouv) =
    Continue {| source_file := sitesgouv; lignes_brutes := 1;
                domaines := ["www.fr"]; domaines_manquants := [] |} ∧
  "www.fr" = "" +:+ "www." +:+ "fr" ∧
  contient "www." "www.fr" = true.
Proof. by vm_compute. Qed.

(** C2, amended: every accepted domain is in lower case, has no whitespace
    and no non-printable character, and ends with one of the six suffixes;
    it is the cleaned candidate token of a line of the file, and it has no
    [www.] in it whenever that token has no whitespace and no non-printable
    character and, in lower case, no four [w] in a row. *)
Theorem C2_domaines_acceptes fs self self' d :
  charger_domaines fs self = Continue self' →
  d ∈ domaines self' →
  lower d = d ∧
  str_all propre d = true ∧
  (∃ tld p, tld ∈ tld_valides ∧ d = p +:+ tld) ∧
  ∃ contenu ligne partie,
    fs (source_file self) = Some contenu ∧
    ligne ∈ readlines contenu ∧
    extraire_partie (strip ligne) = Return partie ∧
    d = nettoyer (strip partie) ∧
    (str_all propre (strip partie) = true →
     contient "wwww" (lower (strip partie)) = false →
     ¬ ∃ p q, d = p +:+ "www." +:+ q).
Proof.
  intros (contenu & st & Hfs & Hst & ->)%charger_domaines_continue Hd.
  cbn [domaines] in Hd. apply sorted_elem_of in Hd.
  destruct (boucle_lignes_domaines _ _ _ _ Hst d Hd)
    as [Hvide|(ligne & partie & Hl & Hp & Ha & ->)].
  { cbn [ensemble_domaines] in Hvide. by apply not_elem_of_empty in Hvide. }
  split_and!.
  - apply lower_id, nettoyer_minuscule.
  - apply nettoyer_propre.
  - by apply accepte_suffixe.
  - exists contenu, ligne, partie. split_and!; [done..|].
    intros Hpropre Hw Hwww%contient_spec.
    by rewrite nettoyer_sans_www in Hwww.
Qed.

Lemma C2_domaines_acceptes_temoin :
  lower "sante.gouv.fr" = "sante.gouv.fr" ∧
  str_all propre "sante.gouv.fr" = true ∧
  (∃ tld p, tld ∈ tld_valides ∧ "sante.gouv.fr" = p +:+ tld) ∧
  ∃ contenu ligne partie,
    un_fichier sitesgouv (nl "WWW.Sante.Gouv.Fr  ") sitesgouv = Some contenu ∧
    ligne ∈ readlines contenu ∧
    extraire_partie (strip ligne) = Return partie ∧
    "sante.gouv.fr" = nettoyer (strip partie) ∧
    (str_all propre (strip partie) = true →
     contient "wwww" (lower (strip partie)) = false →
     ¬ ∃ p q, "sante.gouv.fr" = p +:+ "www." +:+ q).
Proof.
  apply (C2_domaines_acceptes
    (un_fichier sitesgouv (nl "WWW.Sante.Gouv.Fr  ")) (init sitesgouv)
    {| source_file := sitesgouv; lignes_brutes := 1;
       domaines := ["sante.gouv.fr"]; domaines_manquants := [] |});
    [vm_compute; reflexivity|left].
Defined.

(** The removal of the characters that are not kept comes after the removal
    of [www.], and can bring one back as well. *)
Lemma nettoyer_recree_www :
  nettoyer ("ww" +:+ String (ascii_of_N 1) "w.sante.gouv.fr") = "www.sante.gouv.fr".
Proof. by vm_compute. Qed.

Lemma compter_ext (p q : string → bool) l :
  (∀ d, p d = q d) → compter p l = compter q l.
Proof.
  intros Hpq. induction l as [|d l IH]; [done|].
  by rewrite !compter_cons, Hpq, IH.
Qed.

(** C1, as stated, fails: [bretagne.developpement-durable.gouv.fr] passes
    one of the four primary tests only (region), yet it is counted as an
    overlap and not as "region only", because the environment test, which
    it passes too, fills the same set [categories]. *)
Lemma C1_contre_exemple :
  let d := "bretagne.developpement-durable.gouv.fr" in
  charger_domaines (un_fichier sitesgouv (nl d)) (init sitesgouv) =
    Continue {| source_file := sitesgouv; lignes_brutes := 1;
                domaines := [d]; domaines_manquants := [] |} ∧
  nb_primaires d = 1 ∧ est_region d = true ∧
  ∃ a, analyser {| source_file := sitesgouv; lignes_brutes := 1;
                   domaines := [d]; domaines_manquants := [] |} = Return a ∧
       nombre_chevauchement a = 1 ∧ region_uniquement a = 0.
Proof. split_and!; [by vm_compute..|]. eexists. by vm_compute. Qed.

(** C1, amended: [analyser] counts as an overlap each domain that passes two
    or more of the five tests (ministry, region, service, prefecture,
    environment), that is two or more of the four primary ones, or one of
    them and the environment test; and it counts as "only" of a primary
    category each domain that passes the test of that category and no other
    of the five.  The environment test takes part in the computation
    although it has no counter. *)
Theorem C1_uniquement_et_chevauchement self :
  ∃ a, analyser self = Return a ∧
    nombre_chevauchement a =
      compter (λ d, (2 <=? nb_primaires d)
                    || ((nb_primaires d =? 1) && est_environnement d))
        (domaines self) ∧
    nombre_chevauchement a = compter (λ d, 2 <=? nb_categories d) (domaines self) ∧
    ministere_uniquement a = compter (seul_des_cinq est_ministere) (domaines self) ∧
    region_uniquement a = compter (seul_des_cinq est_region) (domaines self) ∧
    service_uniquement a = compter (seul_des_cinq est_service) (domaines self) ∧
    prefecture_uniquement a = compter (seul_des_cinq est_prefecture) (domaines self).
Proof.
  destruct (analyser_retour self)
    as (a & Ha & _ & _ & _ & Hm & Hr & Hs & Hp & Hc & _).
  exists a. split; [done|]. rewrite Hm, Hr, Hs, Hp, Hc.
  split_and!; apply compter_ext; intros d;
    unfold seul_des_cinq, seul, plusieurs, nb_categories, nb_primaires;
    by destruct (est_ministere d), (est_region d), (est_service d),
      (est_prefecture d), (est_environnement d).
Qed.

(** C3: on the accepted domain [ecologie.gouv.fr], which passes the
    environment test of the loop, the total [nombre_developpement] is 0: it
    looks for [developpement-durable] only. *)
Lemma C3_total_sans_ecologie :
  let d := "ecologie.gouv.fr" in
  charger_domaines (un_fichier sitesgouv (nl d)) (init sitesgouv) =
    Continue {| source_file := sitesgouv; lignes_brutes := 1;
                domaines := [d]; domaines_manquants := [] |} ∧
  est_environnement d = true ∧
  compter est_environnement [d] = 1 ∧
  ∃ a, analyser {| source_file := sitesgouv; lignes_brutes := 1;
                   domaines := [d]; domaines_manquants := [] |} = Return a ∧
       nombre_developpement a = 0.
Proof. split_and!; [by vm_compute..|]. eexists. by vm_compute. Qed.

(** ** Loading twice *)

(** A second call on the same object finds the records of the first call in
    [self.domaines_manquants] and appends to them: the accepted sequence and
    the line count are those of the first call, the rejection records are
    there twice. *)
Lemma charger_domaines_encore fs self s1 s2 :
  charger_domaines fs self = Continue s1 →
  charger_domaines fs s1 = Continue s2 →
  domaines s2 = domaines s1 ∧ lignes_brutes s2 = lignes_brutes s1 ∧
  ∃ nouveaux,
    domaines_manquants s1 = domaines_manquants self ++ nouveaux ∧
    domaines_manquants s2 = domaines_manquants s1 ++ nouveaux.
Proof.
  intros (contenu & st1 & Hfs & Hst1 & ->)%charger_domaines_continue.
  intros (contenu' & st2 & Hfs' & Hst2 & ->)%charger_domaines_continue.
  cbn [source_file domaines lignes_brutes domaines_manquants] in *.
  rewrite Hfs in Hfs'. injection Hfs' as <-.
  destruct (boucle_lignes_totale (readlines contenu) 1
    {| ensemble_domaines := ∅; manquants := [] |}) as [st0 Hst0].
  pose proof (boucle_lignes_apres (domaines_manquants self) _ _ _ _ Hst0) as H1.
  pose proof (boucle_lignes_apres (manquants st1) _ _ _ _ Hst0) as H2.
  unfold apres in H1, H2. cbn [ensemble_domaines manquants] in H1, H2.
  rewrite app_nil_r in H1, H2.
  rewrite Hst1 in H1. injection H1 as ->.
  rewrite Hst2 in H2. injection H2 as ->.
  cbn [ensemble_domaines manquants]. split_and!; [done..|].
  by exists (manquants st0).
Qed.

(** C4: the failing input.  On the file whose only line is [notadomain], a
    first load on a fresh object leaves one rejection record; a second load
    of the same file on the same object leaves the same accepted sequence
    and the same line count, and a rejection list that holds the record
    twice: line 57 appends to the list made once by [__init__], where lines
    31 and 59 assign [lignes_brutes] and [domaines] afresh.  The analysis
    then counts one missing line beside two rejection records. *)
Theorem C4_second_chargement :
  charger_domaines (un_fichier sitesgouv (nl "notadomain")) (init sitesgouv) =
    Continue {| source_file := sitesgouv; lignes_brutes := 1; domaines := [];
                domaines_manquants := ["Ligne 1: notadomain..."] |} ∧
  charger_domaines (un_fichier sitesgouv (nl "notadomain"))
    {| source_file := sitesgouv; lignes_brutes := 1; domaines := [];
       domaines_manquants := ["Ligne 1: notadomain..."] |} =
    Continue {| source_file := sitesgouv; lignes_brutes := 1; domaines := [];
                domaines_manquants :=
                  ["Ligne 1: notadomain..."; "Ligne 1: notadomain..."] |} ∧
  ["Ligne 1: notadomain..."; "Ligne 1: notadomain..."]
    ≠ ["Ligne 1: notadomain..."] ∧
  ∃ a, analyser {| source_file := sitesgouv; lignes_brutes := 1; domaines := [];
                   domaines_manquants :=
                     ["Ligne 1: notadomain..."; "Ligne 1: notadomain..."] |}
       = Return a ∧
       nombre_manquant a = 1%Z.
Proof.
  split_and!; [by vm_compute..|discriminate|]. eexists. by vm_compute.
Qed.

(** * Further properties of the code *)

(** ** The loader, line by line *)

Section lignes_exactes.
Implicit Types (ligne : string) (st : chargement) (i : nat).

Lemma extraire_partie_vide : extraire_partie "" = Raise IndexError.
Proof. reflexivity. Qed.

(** A blank line has no candidate token; any other line has one, and it is
    not blank. *)
Lemma extraire_partie_strip ligne :
  match extraire_partie (strip ligne) with
  | Return partie => strip ligne ≠ "" ∧ strip partie ≠ ""
  | Raise _ => strip ligne = ""
  end.
Proof.
  destruct (decide (strip ligne = "")) as [->|Hnv]; [done|].
  destruct (strip_tete ligne Hnv) as (c & r & Hs & Hc). rewrite Hs.
  destruct (extraire_partie_tete c r Hc) as [w ->].
  split; [done|]. by apply strip_non_vide.
Qed.

(** One turn of the loop, in terms of [domaine_de] and [est_rejetee]. *)
Lemma traiter_ligne_exact i ligne st :
  traiter_ligne i ligne st = Return
    {| ensemble_domaines :=
         match domaine_de ligne with
         | Some d => {[d]} ∪ ensemble_domaines st
         | None => ensemble_domaines st
         end;
       manquants :=
         manquants st ++
         (if est_rejetee ligne then [message_manquant i (strip ligne)] else []) |}.
Proof.
  unfold traiter_ligne, domaine_de, est_rejetee.
  pose proof (extraire_partie_strip ligne) as Hp.
  destruct (extraire_partie (strip ligne)) as [partie|e].
  - destruct Hp as [Hl Hp].
    rewrite (proj2 (non_vide_true _) Hl). cbn [negb].
    rewrite bind_return, (proj2 (non_vide_true _) Hp).
    destruct (accepte _); cbn [negb andb].
    { rewrite app_nil_r. by destruct st. }
    destruct (startswith "#" (strip ligne)); cbn [negb andb].
    { rewrite app_nil_r. by destruct st. }
    assert (isspace (strip ligne) = false) as ->; [|done].
    destruct (strip_tete ligne Hl) as (c & r & -> & Hc).
    unfold isspace. cbn. by rewrite Hc.
  - rewrite Hp. cbn. rewrite app_nil_r. by destruct st.
Qed.

Lemma boucle_lignes_exact lignes : ∀ i st,
  boucle_lignes i lignes st = Return
    {| ensemble_domaines :=
         list_to_set (omap domaine_de lignes) ∪ ensemble_domaines st;
       manquants := manquants st ++ rejets i lignes |}.
Proof.
  induction lignes as [|ligne lignes IH]; intros i st; cbn [boucle_lignes].
  - cbn. rewrite app_nil_r, (left_id_L ∅ (∪)). by destruct st.
  - rewrite traiter_ligne_exact, bind_return, IH.
    cbn [ensemble_domaines manquants rejets]. rewrite <-app_assoc.
    f_equal. f_equal. cbn [omap list_omap].
    destruct (domaine_de ligne) as [d|]; cbn [list_to_set]; [|done].
    by rewrite (assoc_L (∪)), (comm_L (∪) _ {[d]}).
Qed.

End lignes_exactes.

(** ** The loader in closed form *)

Section chargement_exact.
Implicit Types (fs : fichiers) (self : analyseur).

Lemma charger_domaines_exact fs self contenu :
  fs (source_file self) = Some contenu →
  charger_domaines fs self =
    Continue {| source_file := source_file self;
                lignes_brutes := nb_lignes_brutes (readlines contenu);
                domaines :=
                  sorted (elements (list_to_set (C := gset string)
                            (omap domaine_de (readlines contenu))));
                domaines_manquants :=
                  domaines_manquants self ++ rejets 1 (readlines contenu) |}.
Proof.
  intros Hfs.
  destruct (charger_domaines_lu fs self contenu Hfs) as (st & Hst & ->).
  rewrite boucle_lignes_exact in Hst. injection Hst as <-.
  cbn [ensemble_domaines manquants]. by rewrite (right_id_L ∅ (∪)).
Qed.

Lemma domaine_de_Some ligne d :
  domaine_de ligne = Some d ↔
  ∃ partie, extraire_partie (strip ligne) = Return partie ∧
            accepte (nettoyer (strip partie)) = true ∧
            d = nettoyer (strip partie).
Proof.
  unfold domaine_de. destruct (extraire_partie (strip ligne)) as [partie|e].
  - destruct (accepte (nettoyer (strip partie))) eqn:Ha; split.
    + intros [= <-]. by exists partie.
    + by intros (p & [= <-] & _ & ->).
    + done.
    + intros (p & [= <-] & Ha' & _). by rewrite Ha in Ha'.
  - split; [done|]. by intros (p & ? & _).
Qed.

(** X1: the accepted sequence holds exactly the cleaned tokens that pass
    the suffix test: none is invented, and none is lost, wherever its line
    stands in the file and whatever the other lines are. *)
Theorem chargement_domaines_exacts fs self self' contenu d :
  fs (source_file self) = Some contenu →
  charger_domaines fs self = Continue self' →
  d ∈ domaines self' ↔
  ∃ ligne partie,
    ligne ∈ readlines contenu ∧
    extraire_partie (strip ligne) = Return partie ∧
    accepte (nettoyer (strip partie)) = true ∧
    d = nettoyer (strip partie).
Proof.
  intros Hfs. rewrite (charger_domaines_exact _ _ _ Hfs). intros [= <-].
  cbn [domaines]. rewrite sorted_elem_of, elem_of_list_to_set, list_elem_of_omap.
  split.
  - intros (ligne & Hl & (partie & ?)%domaine_de_Some). by exists ligne, partie.
  - intros (ligne & partie & Hl & ?). exists ligne. split; [done|].
    apply domaine_de_Some. by exists partie.
Qed.

Lemma chargement_domaines_exacts_temoin :
  "sante.gouv.fr" ∈ ["sante.gouv.fr"] ↔
  ∃ ligne partie,
    ligne ∈ readlines (nl "notadomain" +:+ nl "WWW.Sante.Gouv.Fr  ") ∧
    extraire_partie (strip ligne) = Return partie ∧
    accepte (nettoyer (strip partie)) = true ∧
    "sante.gouv.fr" = nettoyer (strip partie).
Proof.
  apply (chargement_domaines_exacts
    (un_fichier sitesgouv (nl "notadomain" +:+ nl "WWW.Sante.Gouv.Fr  "))
    (init sitesgouv)
    {| source_file := sitesgouv; lignes_brutes := 2;
       domaines := ["sante.gouv.fr"];
       domaines_manquants := ["Ligne 1: notadomain..."] |});
    [reflexivity|vm_compute; reflexivity].
Defined.

(** X2: a load appends to the rejection list one record for each rejected
    line, in the order of the file and with its line number; a line is
    rejected exactly when it has a candidate token, the cleaned token fails
    the suffix test, and the stripped line does not start with [#]. *)
Theorem chargement_rejets_exacts fs self self' contenu :
  fs (source_file self) = Some contenu →
  charger_domaines fs self = Continue self' →
  domaines_manquants self' = domaines_manquants self ++ rejets 1 (readlines contenu).
Proof.
  intros Hfs. rewrite (charger_domaines_exact _ _ _ Hfs). by intros [= <-].
Qed.

Lemma chargement_rejets_exacts_temoin :
  ["Ligne 2: notadomain..."; "Ligne 5: x.com y..."] =
  [] ++ rejets 1 (readlines
    (nl "sante.gouv.fr" +:+ nl " notadomain" +:+ nl "# .com" +:+ nl ""
     +:+ nl "x.com y")).
Proof.
  apply (chargement_rejets_exacts
    (un_fichier sitesgouv
       (nl "sante.gouv.fr" +:+ nl " notadomain" +:+ nl "# .com" +:+ nl ""
        +:+ nl "x.com y"))
    (init sitesgouv)
    {| source_file := sitesgouv; lignes_brutes := 4;
       domaines := ["sante.gouv.fr"];
       domaines_manquants := ["Ligne 2: notadomain..."; "Ligne 5: x.com y..."] |});
    [reflexivity|vm_compute; reflexivity].
Defined.

Lemma size_ajout (x : string) (X : gset string) : size ({[x]} ∪ X) ≤ S (size X).
Proof.
  rewrite size_union_alt, size_singleton.
  assert (X ∖ {[x]} ⊆ X) as Hsub.
  { intros y. rewrite elem_of_difference. tauto. }
  apply subseteq_size in Hsub. lia.
Qed.

Lemma size_list_to_set_le (l : list string) :
  size (list_to_set (C := gset string) l) ≤ length l.
Proof.
  induction l as [|x l IH]; cbn [list_to_set length].
  - by rewrite size_empty.
  - pose proof (size_ajout x (list_to_set l)). lia.
Qed.

(** A line that is not blank is accepted, rejected, or neither (a comment):
    never both. *)
Lemma acceptees_et_rejetees lignes : ∀ i,
  length (omap domaine_de lignes) + length (rejets i lignes)
  ≤ nb_lignes_brutes lignes.
Proof.
  unfold nb_lignes_brutes.
  induction lignes as [|ligne lignes IH]; intros i; [done|].
  cbn [omap list_omap rejets]. rewrite length_app, filter_cons.
  specialize (IH (S i)).
  unfold domaine_de at 1, est_rejetee.
  pose proof (extraire_partie_strip ligne) as Hp.
  destruct (extraire_partie (strip ligne)) as [partie|e].
  - destruct Hp as [Hl%non_vide_true _].
    rewrite decide_True by done. cbn [length].
    destruct (accepte _); cbn [negb andb length]; [lia|].
    destruct (startswith "#" _); cbn [negb length]; lia.
  - cbn [length]. case_decide; cbn [length]; lia.
Qed.

(** X3: the domains accepted and the records added by a load are together
    at most the lines that are not blank; so after a load on a fresh object
    the rejection list is never longer than the missing count that
    [analyser] reports. *)
Theorem rejets_au_plus_manquants fs self self' contenu :
  fs (source_file self) = Some contenu →
  charger_domaines fs self = Continue self' →
  length (domaines self')
  + (length (domaines_manquants self') - length (domaines_manquants self))
  ≤ lignes_brutes self' ∧
  (domaines_manquants self = [] →
   ∃ a, analyser self' = Return a ∧
        (Z.of_nat (length (domaines_manquants self')) ≤ nombre_manquant a)%Z).
Proof.
  intros Hfs. rewrite (charger_domaines_exact _ _ _ Hfs). intros [= <-].
  cbn [domaines domaines_manquants lignes_brutes].
  rewrite sorted_length, length_app.
  pose proof (size_list_to_set_le (omap domaine_de (readlines contenu))) as H1.
  pose proof (acceptees_et_rejetees (readlines contenu) 1) as H2.
  split.
  { rewrite (Nat.add_comm (length (domaines_manquants self))), Nat.add_sub.
    etrans; [|exact H2]. apply Nat.add_le_mono_r, H1. }
  intros ->.
  match goal with |- ∃ a, analyser ?s = _ ∧ _ =>
    destruct (analyser_retour s) as (a & Ha & _ & _ & Hm & _) end.
  exists a. split; [done|]. rewrite Hm.
  cbn [domaines domaines_manquants lignes_brutes app].
  rewrite sorted_length.
  assert (size (list_to_set (C := gset string) (omap domaine_de (readlines contenu)))
          + length (rejets 1 (readlines contenu))
          ≤ nb_lignes_brutes (readlines contenu)) as H3.
  { etrans; [|exact H2]. apply Nat.add_le_mono_r, H1. }
  revert H3. generalize (size (list_to_set (C := gset string)
    (omap domaine_de (readlines contenu)))). intros n H3. cbn [length app]. lia.
Qed.

Lemma rejets_au_plus_manquants_temoin :
  length ["sante.gouv.fr"] + (length ["Ligne 2: notadomain..."] - length (@nil string))
  ≤ 3 ∧
  (@nil string = [] →
   ∃ a, analyser {| source_file := sitesgouv; lignes_brutes := 3;
                    domaines := ["sante.gouv.fr"];
                    domaines_manquants := ["Ligne 2: notadomain..."] |} = Return a ∧
        (Z.of_nat (length ["Ligne 2: notadomain..."]) ≤ nombre_manquant a)%Z).
Proof.
  apply (rejets_au_plus_manquants
    (un_fichier sitesgouv
       (nl "sante.gouv.fr" +:+ nl "notadomain" +:+ nl "www.sante.gouv.fr"))
    (init sitesgouv)
    {| source_file := sitesgouv; lignes_brutes := 3;
       domaines := ["sante.gouv.fr"];
       domaines_manquants := ["Ligne 2: notadomain..."] |}
    (nl "sante.gouv.fr" +:+ nl "notadomain" +:+ nl "www.sante.gouv.fr"));
    [reflexivity|vm_compute; reflexivity].
Defined.

End chargement_exact.

(** ** The suffix test *)

Section suffixes.
Implicit Types (d s t : string).

Lemma chaine_app_assoc s t d : (s +:+ t) +:+ d = s +:+ (t +:+ d).
Proof. induction s as [|c s IH]; [done|]. by rewrite !app_cons, IH. Qed.

Lemma endswith_trans s t d :
  endswith s t = true → endswith t d = true → endswith s d = true.
Proof.
  intros [p ->]%endswith_spec [q ->]%endswith_spec.
  apply endswith_spec. exists (q +:+ p). by rewrite chaine_app_assoc.
Qed.

Lemma accepte_trois d :
  accepte d = endswith ".fr" d || endswith ".nc" d || endswith ".gouv.pf" d.
Proof.
  unfold accepte. cbn [existsb tld_valides].
  pose proof (endswith_trans ".fr" ".gouv.fr" d eq_refl) as H1.
  pose proof (endswith_trans ".nc" ".gouv.nc" d eq_refl) as H2.
  pose proof (endswith_trans ".fr" ".pref.gouv.fr" d eq_refl) as H3.
  destruct (endswith ".gouv.fr" d), (endswith ".fr" d), (endswith ".gouv.nc" d),
    (endswith ".nc" d), (endswith ".gouv.pf" d), (endswith ".pref.gouv.fr" d);
    cbn; try done;
    first [discriminate (H1 eq_refl)|discriminate (H2 eq_refl)|discriminate (H3 eq_refl)].
Qed.

(** X4: of the six suffixes of the loader three decide: a cleaned token is
    accepted exactly when it ends with [.fr], [.nc] or [.gouv.pf]. *)
Theorem accepte_suffixes d :
  accepte d = true ↔
  ∃ p, d = p +:+ ".fr" ∨ d = p +:+ ".nc" ∨ d = p +:+ ".gouv.pf".
Proof.
  rewrite accepte_trois, !orb_true_iff, !endswith_spec. split.
  - intros [[[p ->]|[p ->]]|[p ->]]; exists p; auto.
  - intros [p [->| [->| ->]]]; [left; left|left; right|right]; by exists p.
Qed.

Lemma chaine_length_app s t :
  String.length (s +:+ t) = String.length s + String.length t.
Proof. induction s as [|c s IH]; [done|]. rewrite app_cons. cbn. by rewrite IH. Qed.

Lemma accepte_longueur d : accepte d = true → 3 ≤ String.length d.
Proof.
  rewrite accepte_trois, !orb_true_iff, !endswith_spec.
  intros [[[p ->]|[p ->]]|[p ->]]; rewrite chaine_length_app; cbn; lia.
Qed.

(** X5: [est_domaine_valide] holds exactly of the strings of six characters
    or more that end with [.fr], [.nc] or [.gouv.pf].  The loader does not
    call it and has no such bound: a domain it accepts has three characters
    or more, passes [est_domaine_valide] exactly when it has six or more,
    and the line [.fr], of three characters, is accepted although
    [est_domaine_valide] refuses it. *)
Theorem est_domaine_valide_spec :
  (∀ d, est_domaine_valide d = true ↔
        6 ≤ String.length d ∧
        ∃ p, d = p +:+ ".fr" ∨ d = p +:+ ".nc" ∨ d = p +:+ ".gouv.pf") ∧
  (∀ fs self self' d,
     charger_domaines fs self = Continue self' → d ∈ domaines self' →
     3 ≤ String.length d ∧
     (est_domaine_valide d = true ↔ 6 ≤ String.length d)) ∧
  (charger_domaines (un_fichier sitesgouv (nl ".fr")) (init sitesgouv) =
     Continue {| source_file := sitesgouv; lignes_brutes := 1;
                 domaines := [".fr"]; domaines_manquants := [] |} ∧
   est_domaine_valide ".fr" = false).
Proof.
  assert (∀ d, est_domaine_valide d = true ↔ 6 ≤ String.length d ∧ accepte d = true)
    as Hv.
  { intros d. unfold est_domaine_valide. fold (accepte d).
    destruct (String.length d <? 6) eqn:Hlen.
    - rewrite orb_true_r. apply Nat.ltb_lt in Hlen. split; [done|lia].
    - apply Nat.ltb_ge in Hlen. destruct d as [|c d]; [cbn in Hlen; lia|].
      cbn [non_vide negb orb]. tauto. }
  split_and!.
  - intros d. rewrite Hv, accepte_trois, !orb_true_iff, !endswith_spec.
    split; (intros [Hl H]; split; [done|]).
    + destruct H as [[[p ->]|[p ->]]|[p ->]]; exists p; auto.
    + destruct H as [p [->| [->| ->]]]; [left; left|left; right|right];
        by exists p.
  - intros fs self self' d Hch Hd.
    apply charger_domaines_continue in Hch as (contenu & st & _ & Hst & ->).
    cbn [domaines] in Hd. apply sorted_elem_of in Hd.
    destruct (boucle_lignes_domaines _ _ _ _ Hst d Hd)
      as [Hvide|(ligne & partie & _ & _ & Ha & ->)].
    { cbn [ensemble_domaines] in Hvide. by apply not_elem_of_empty in Hvide. }
    split; [by apply accepte_longueur|]. rewrite Hv. tauto.
  - by vm_compute.
  - by vm_compute.
Qed.

Lemma est_domaine_valide_spec_temoin :
  3 ≤ String.length "elysee.fr" ∧
  (est_domaine_valide "elysee.fr" = true ↔ 6 ≤ String.length "elysee.fr").
Proof.
  apply (proj1 (proj2 est_domaine_valide_spec)
    (un_fichier sitesgouv (nl "WWW.Elysee.FR"))
    (init sitesgouv)
    {| source_file := sitesgouv; lignes_brutes := 1;
       domaines := ["elysee.fr"]; domaines_manquants := [] |}).
  - vm_compute. reflexivity.
  - left.
Defined.

End suffixes.

(** ** Loading a list of accepted domains *)

Section relecture.
Implicit Types (d r reste : string) (c : ascii) (ds : list string).

Lemma propre_pas_espace c : propre c = true → char_isspace c = false.
Proof. unfold propre. by destruct (char_isspace c); rewrite ?andb_false_r. Qed.

Lemma propre_pas_LF c : propre c = true → c ≠ LF.
Proof. by intros H ->. Qed.

Lemma propre_pas_CR c : propre c = true → c ≠ CR.
Proof. by intros H ->. Qed.

Lemma universal_newlines_ligne d reste :
  str_all propre d = true →
  universal_newlines (d +:+ String LF reste) = d +:+ String LF (universal_newlines reste).
Proof.
  induction d as [|c d IH]; [done|]. cbn [str_all].
  intros [Hc Hd]%andb_true_iff. rewrite !app_cons. cbn [universal_newlines].
  rewrite bool_decide_eq_false_2 by by apply propre_pas_CR. by rewrite IH.
Qed.

Lemma lines_keepends_ligne d reste :
  str_all propre d = true →
  lines_keepends (d +:+ String LF reste) = nl d :: lines_keepends reste.
Proof.
  unfold nl. induction d as [|c d IH]; [done|]. cbn [str_all].
  intros [Hc Hd]%andb_true_iff. rewrite !app_cons. cbn [lines_keepends].
  rewrite bool_decide_eq_false_2 by by apply propre_pas_LF. by rewrite IH.
Qed.

Lemma readlines_lignes_de ds :
  Forall (λ d, str_all propre d = true) ds → readlines (lignes_de ds) = nl <$> ds.
Proof.
  unfold readlines. induction 1 as [|d ds Hd _ IH]; [done|]. cbn [lignes_de foldr].
  rewrite universal_newlines_ligne, lines_keepends_ligne by done.
  fold (lignes_de ds). by rewrite IH.
Qed.

Lemma rstrip_sans_espace d :
  str_all propre d = true → rstrip d = d ∧ rstrip (nl d) = d.
Proof.
  unfold nl. induction d as [|c d IH]; [done|]. cbn [str_all].
  intros [Hc Hd]%andb_true_iff. destruct (IH Hd) as [IH1 IH2].
  rewrite app_cons. cbn [rstrip]. rewrite IH1, IH2, (propre_pas_espace c Hc).
  by destruct d.
Qed.

Lemma lstrip_sans_espace d reste :
  str_all propre d = true → d ≠ "" → lstrip (d +:+ reste) = d +:+ reste.
Proof.
  destruct d as [|c d]; [done|]. cbn [str_all]. intros [Hc _]%andb_true_iff _.
  rewrite app_cons. cbn [lstrip]. by rewrite (propre_pas_espace c Hc).
Qed.

Lemma strip_ligne d : str_all propre d = true → strip (nl d) = d ∧ strip d = d.
Proof.
  intros Hd. destruct (rstrip_sans_espace d Hd) as [H1 H2]. unfold strip.
  destruct (decide (d = "")) as [->|Hne]; [done|]. unfold nl.
  rewrite (lstrip_sans_espace d _ Hd Hne). fold (nl d).
  pose proof (lstrip_sans_espace d "" Hd Hne) as H3.
  assert (d +:+ "" = d) as Hvide.
  { clear. induction d as [|c d IH]; [done|]. by rewrite app_cons, IH. }
  rewrite Hvide in H3. by rewrite H3.
Qed.

Lemma split_sans_espace d : str_all propre d = true → d ≠ "" → split d = [d].
Proof.
  induction d as [|c d IH]; [done|]. cbn [str_all].
  intros [Hc Hd]%andb_true_iff _. cbn [split].
  rewrite (propre_pas_espace c Hc). destruct d as [|c' d']; [done|].
  assert (char_isspace c' = false) as ->.
  { cbn [str_all] in Hd. apply andb_true_iff in Hd as [Hc' _].
    by apply propre_pas_espace. }
  by rewrite IH.
Qed.

Lemma contient_char_TAB d : str_all propre d = true → contient_char TAB d = false.
Proof.
  induction d as [|c d IH]; [done|]. cbn [str_all contient_char].
  intros [Hc Hd]%andb_true_iff. rewrite IH by done.
  rewrite bool_decide_eq_false_2; [done|]. by intros ->.
Qed.

Lemma extraire_partie_sans_espace d :
  str_all propre d = true → d ≠ "" → extraire_partie d = Return d.
Proof.
  intros Hd Hne. unfold extraire_partie.
  by rewrite contient_char_TAB, split_sans_espace.
Qed.

Lemma replace_sans_www d : contient "www." d = false → replace "www." "" d = d.
Proof.
  induction d as [|c d IH]; [done|]. intros Hw.
  pose proof (contient_queue _ _ _ Hw) as Hd.
  cbn [contient] in Hw. apply orb_false_iff in Hw as [Hs _].
  by rewrite replace_www_autre, IH.
Qed.

(** The cleaning leaves unchanged what it has produced, as long as no
    [www.] is left in it. *)
Lemma nettoyer_fixe d :
  str_all propre d = true → lower d = d → contient "www." d = false →
  nettoyer d = d.
Proof.
  intros Hp Hl Hw. unfold nettoyer.
  by rewrite Hl, replace_sans_www, str_filter_id.
Qed.

End relecture.

Section liste_relue.
Implicit Types (d : string) (ds : list string).

Lemma domaine_net_ligne d :
  domaine_net d →
  strip (nl d) = d ∧ d ≠ "" ∧ domaine_de (nl d) = Some d ∧ est_rejetee (nl d) = false.
Proof.
  intros (Ha & Hp & Hl & Hw).
  assert (d ≠ "") as Hne by (by intros ->).
  destruct (strip_ligne d Hp) as [Hs1 Hs2].
  unfold domaine_de, est_rejetee.
  rewrite Hs1, (extraire_partie_sans_espace d Hp Hne), Hs2.
  by rewrite (nettoyer_fixe d Hp Hl Hw), Ha.
Qed.

Lemma lignes_nettes ds :
  Forall domaine_net ds →
  omap domaine_de (nl <$> ds) = ds ∧
  (∀ i, rejets i (nl <$> ds) = []) ∧
  nb_lignes_brutes (nl <$> ds) = length ds.
Proof.
  unfold nb_lignes_brutes.
  induction 1 as [|d ds Hd _ (IH1 & IH2 & IH3)]; [done|].
  destruct (domaine_net_ligne d Hd) as (Hs & Hne & Hdd & Hr).
  cbn [fmap list_fmap omap list_omap rejets]. rewrite Hdd, Hr.
  split_and!.
  - f_equal. exact IH1.
  - intros i. apply IH2.
  - rewrite filter_cons, decide_True; [cbn [length]; by f_equal|].
    rewrite Hs. by apply non_vide_true.
Qed.

Lemma avant_le a b : avant a b → String.le a b.
Proof.
  unfold avant, String.le, String.ltb, String.leb.
  by destruct (String.compare a b).
Qed.

Lemma avant_different a b : avant a b → a ≠ b.
Proof.
  unfold avant, String.ltb. intros H ->.
  pose proof (String.compare_antisym b b) as Hc.
  by destruct (String.compare b b).
Qed.

Lemma StronglySorted_avant_NoDup ds : StronglySorted avant ds → NoDup ds.
Proof.
  induction 1 as [|d ds _ IH Hd]; constructor; [|done].
  intros Hin. eapply Forall_forall in Hd; [|exact Hin].
  by apply avant_different in Hd.
Qed.

(** A strictly ascending list is what [sorted] makes of its set. *)
Lemma sorted_list_to_set ds :
  StronglySorted avant ds → sorted (elements (list_to_set (C := gset string) ds)) = ds.
Proof.
  intros Hs. pose proof (StronglySorted_avant_NoDup ds Hs) as Hnd.
  apply (StronglySorted_unique String.le).
  - apply (StronglySorted_merge_sort _).
  - eapply Sorted_StronglySorted; [apply _|].
    apply StronglySorted_Sorted in Hs. clear Hnd.
    induction Hs as [|d ds Hs IH Hd]; constructor; [done|].
    destruct Hd; constructor. by apply avant_le.
  - unfold sorted. rewrite merge_sort_Permutation. by apply elements_list_to_set.
Qed.

(** X6: a file whose text, as the loader decodes it, is a strictly
    ascending list of domains as the loader leaves them, with no [www.] left
    in any, one per line, is loaded as that list: every line counts, every
    domain is accepted unchanged and in the same order, and no line is
    rejected. *)
Theorem relecture_liste fs self ds :
  Forall domaine_net ds →
  StronglySorted avant ds →
  fs (source_file self) = Some (lignes_de ds) →
  charger_domaines fs self =
    Continue {| source_file := source_file self;
                lignes_brutes := length ds;
                domaines := ds;
                domaines_manquants := domaines_manquants self |}.
Proof.
  intros Hnet Hs Hfs. rewrite (charger_domaines_exact _ _ _ Hfs).
  rewrite readlines_lignes_de.
  2:{ eapply Forall_impl; [exact Hnet|]. by intros d (_ & ? & _). }
  destruct (lignes_nettes ds Hnet) as (-> & -> & ->).
  by rewrite sorted_list_to_set, app_nil_r.
Qed.

Lemma relecture_liste_temoin :
  charger_domaines
    (un_fichier sitesgouv (lignes_de ["economie.gouv.fr"; "sante.gouv.fr"]))
    (init sitesgouv) =
  Continue {| source_file := sitesgouv; lignes_brutes := 2;
              domaines := ["economie.gouv.fr"; "sante.gouv.fr"];
              domaines_manquants := [] |}.
Proof.
  apply (relecture_liste
    (un_fichier sitesgouv (lignes_de ["economie.gouv.fr"; "sante.gouv.fr"]))
    (init sitesgouv) ["economie.gouv.fr"; "sante.gouv.fr"]).
  - repeat constructor.
  - repeat constructor.
  - reflexivity.
Defined.

Lemma utf8_ascii d : str_all est_ascii d = true → utf8 d = d.
Proof.
  induction d as [|c d IH]; [done|]. cbn [str_all utf8].
  intros [Hc Hd]%andb_true_iff. unfold utf8_char. unfold est_ascii in Hc.
  by rewrite Hc, IH.
Qed.

Lemma utf8_liste_ascii ds :
  (∀ d, d ∈ ds → str_all est_ascii d = true) → utf8 <$> ds = ds.
Proof.
  induction ds as [|d ds IH]; [done|]. intros H. cbn [fmap list_fmap].
  rewrite utf8_ascii by (apply H; left). f_equal. apply IH.
  intros d' Hd'. apply H. by right.
Qed.

(** The writer encodes in UTF-8 and the loader decodes in latin-1: a domain
    that is not ASCII does not come back.  [é.fr], where [é] is the code
    point 233, is written as the bytes 195, 169 and read as two
    characters. *)
Lemma relecture_non_ascii :
  charger_domaines
    (un_fichier sitesgouv (lignes_de (utf8 <$> [String (ascii_of_N 233) ".fr"])))
    (init sitesgouv) =
  Continue {| source_file := sitesgouv; lignes_brutes := 1;
              domaines := [String (ascii_of_N 227) (String (ascii_of_N 169) ".fr")];
              domaines_manquants := [] |}.
Proof. by vm_compute. Qed.

(** X7: loading is idempotent through the list that the program writes.
    When every accepted domain is made of ASCII characters and none holds
    [www.], the domain lines as [sauvegarder_rapport_complet] writes them
    (UTF-8, one domain per line), read as a file by the loader (latin-1),
    give the same accepted sequence again, with no rejection. *)
Theorem chargement_idempotent fs self self' fs' self2 :
  charger_domaines fs self = Continue self' →
  (∀ d, d ∈ domaines self' → str_all est_ascii d = true) →
  (∀ d, d ∈ domaines self' → contient "www." d = false) →
  fs' (source_file self2) = Some (lignes_de (utf8 <$> domaines self')) →
  charger_domaines fs' self2 =
    Continue {| source_file := source_file self2;
                lignes_brutes := length (domaines self');
                domaines := domaines self';
                domaines_manquants := domaines_manquants self2 |}.
Proof.
  intros Hch Hascii Hw Hfs'. rewrite (utf8_liste_ascii _ Hascii) in Hfs'.
  assert (Forall domaine_net (domaines self') ∧
          StronglySorted avant (domaines self')) as [Hnet Hs]; [split|].
  3:{ rewrite (charger_domaines_exact _ _ _ Hfs'), readlines_lignes_de.
      2:{ eapply Forall_impl; [exact Hnet|]. by intros d (_ & ? & _). }
      destruct (lignes_nettes _ Hnet) as (-> & -> & ->).
      by rewrite sorted_list_to_set, app_nil_r. }
  - apply Forall_forall. intros d Hd. specialize (Hw d Hd).
    apply charger_domaines_continue in Hch as (contenu & st & Hfs & Hst & ->).
    cbn [domaines] in Hd. apply sorted_elem_of in Hd.
    destruct (boucle_lignes_domaines _ _ _ _ Hst d Hd)
      as [Hvide|(ligne & partie & _ & _ & Ha & ->)].
    { cbn [ensemble_domaines] in Hvide. by apply not_elem_of_empty in Hvide. }
    split_and!; [done|apply nettoyer_propre| |done].
    apply lower_id, nettoyer_minuscule.
  - apply charger_domaines_continue in Hch as (contenu & st & _ & _ & ->).
    apply sorted_strict.
Qed.

Lemma chargement_idempotent_temoin :
  charger_domaines
    (un_fichier "liste.txt" (lignes_de (utf8 <$> ["economie.gouv.fr"; "sante.gouv.fr"])))
    (init "liste.txt") =
  Continue {| source_file := "liste.txt"; lignes_brutes := 2;
              domaines := ["economie.gouv.fr"; "sante.gouv.fr"];
              domaines_manquants := [] |}.
Proof.
  apply (chargement_idempotent
    (un_fichier sitesgouv
       (nl "www.sante.gouv.fr" +:+ nl "notadomain" +:+ nl "Economie.gouv.fr"
        +:+ nl "sante.gouv.fr"))
    (init sitesgouv)
    {| source_file := sitesgouv; lignes_brutes := 4;
       domaines := ["economie.gouv.fr"; "sante.gouv.fr"];
       domaines_manquants := ["Ligne 2: notadomain..."] |}
    (un_fichier "liste.txt" (lignes_de (utf8 <$> ["economie.gouv.fr"; "sante.gouv.fr"])))
    (init "liste.txt")).
  - vm_compute. reflexivity.
  - intros d Hd. repeat (apply elem_of_cons in Hd as [->|Hd]; [reflexivity|]).
    by apply elem_of_nil in Hd.
  - intros d Hd. repeat (apply elem_of_cons in Hd as [->|Hd]; [reflexivity|]).
    by apply elem_of_nil in Hd.
  - reflexivity.
Defined.

End liste_relue.

(** ** The analysis in closed form *)

Section analyse_exacte.
Implicit Types (self : analyseur) (d : string) (ds : list string).

Lemma analyser_exact self :
  let ds := domaines self in
  analyser self = Return
    {| total_domaines := length ds;
       a_lignes_brutes := lignes_brutes self;
       nombre_manquant := Z.of_nat (lignes_brutes self) - Z.of_nat (length ds);
       ministere_uniquement := compter (seul est_ministere) ds;
       region_uniquement := compter (seul est_region) ds;
       service_uniquement := compter (seul est_service) ds;
       prefecture_uniquement := compter (seul est_prefecture) ds;
       nombre_chevauchement := compter plusieurs ds;
       nombre_ministere := compter est_ministere ds;
       nombre_region := compter est_region ds;
       nombre_service := compter est_service ds;
       nombre_prefecture := compter est_prefecture ds;
       nombre_developpement := compter (contient "developpement-durable") ds;
       domaine_plus_long := match ds with [] => "" | x :: r => plus_long_de x r end;
       domaine_plus_court := match ds with [] => "" | x :: r => plus_court_de x r end;
       longueur_moyenne :=
         match ds with
         | [] => Entier 0
         | _ :: _ => Arrondi1 (somme_longueurs ds) (length ds)
         end;
       manquants_critiques := filter (λ d, d ∉ ds) domaines_critiques |}.
Proof.
  intros ds. unfold analyser. fold ds.
  rewrite (boucle_domaines_spec ds compteurs_zero).
  destruct ds as [|d l].
  - rewrite bool_decide_eq_false_2 by (by intros []). by rewrite !bind_return.
  - rewrite bool_decide_eq_true_2 by done.
    cbn [max_len min_len length moyenne_arrondie]. by rewrite !bind_return.
Qed.

End analyse_exacte.

(** ** The longest and the shortest domain *)

Section extremes.
Implicit Types (x y m : string) (r : list string).

Lemma plus_long_de_premier r : ∀ (l1 : list string) x (l2 : list string),
  (∀ y, y ∈ l1 → String.length y < String.length x) →
  (∀ y, y ∈ l2 → String.length y ≤ String.length x) →
  ∃ k1 k2, l1 ++ x :: l2 ++ r = k1 ++ plus_long_de x r :: k2 ∧
    (∀ y, y ∈ k1 → String.length y < String.length (plus_long_de x r)) ∧
    (∀ y, y ∈ k2 → String.length y ≤ String.length (plus_long_de x r)).
Proof.
  unfold plus_long_de.
  induction r as [|y r IH]; intros l1 x l2 H1 H2; cbn [fold_left].
  - exists l1, l2. by rewrite app_nil_r.
  - destruct (String.length x <? String.length y) eqn:Hxy.
    + apply Nat.ltb_lt in Hxy.
      destruct (IH (l1 ++ x :: l2) y []) as (k1 & k2 & Heq & Hk1 & Hk2).
      * intros z [Hz|Hz]%elem_of_app; [specialize (H1 z Hz); lia|].
        apply elem_of_cons in Hz as [->|Hz]; [done|]. specialize (H2 z Hz). lia.
      * intros z Hz. by apply elem_of_nil in Hz.
      * exists k1, k2. split; [|done]. rewrite <-Heq.
        by rewrite <-app_assoc.
    + apply Nat.ltb_ge in Hxy.
      destruct (IH l1 x (l2 ++ [y])) as (k1 & k2 & Heq & Hk1 & Hk2); [done| |].
      * intros z [Hz|Hz]%elem_of_app; [by apply H2|].
        by apply list_elem_of_singleton in Hz as ->.
      * exists k1, k2. split; [|done]. rewrite <-Heq. by rewrite <-app_assoc.
Qed.

Lemma plus_court_de_premier r : ∀ (l1 : list string) x (l2 : list string),
  (∀ y, y ∈ l1 → String.length x < String.length y) →
  (∀ y, y ∈ l2 → String.length x ≤ String.length y) →
  ∃ k1 k2, l1 ++ x :: l2 ++ r = k1 ++ plus_court_de x r :: k2 ∧
    (∀ y, y ∈ k1 → String.length (plus_court_de x r) < String.length y) ∧
    (∀ y, y ∈ k2 → String.length (plus_court_de x r) ≤ String.length y).
Proof.
  unfold plus_court_de.
  induction r as [|y r IH]; intros l1 x l2 H1 H2; cbn [fold_left].
  - exists l1, l2. by rewrite app_nil_r.
  - destruct (String.length y <? String.length x) eqn:Hxy.
    + apply Nat.ltb_lt in Hxy.
      destruct (IH (l1 ++ x :: l2) y []) as (k1 & k2 & Heq & Hk1 & Hk2).
      * intros z [Hz|Hz]%elem_of_app; [specialize (H1 z Hz); lia|].
        apply elem_of_cons in Hz as [->|Hz]; [done|]. specialize (H2 z Hz). lia.
      * intros z Hz. by apply elem_of_nil in Hz.
      * exists k1, k2. split; [|done]. rewrite <-Heq.
        by rewrite <-app_assoc.
    + apply Nat.ltb_ge in Hxy.
      destruct (IH l1 x (l2 ++ [y])) as (k1 & k2 & Heq & Hk1 & Hk2); [done| |].
      * intros z [Hz|Hz]%elem_of_app; [by apply H2|].
        by apply list_elem_of_singleton in Hz as ->.
      * exists k1, k2. split; [|done]. rewrite <-Heq. by rewrite <-app_assoc.
Qed.

(** X8: on a sequence that is not empty, the longest domain reported is an
    element of the sequence, no element is longer, and every element before
    it is strictly shorter: of several domains of the greatest length the
    first is reported.  The same holds for the shortest domain, with the
    order of the lengths reversed. *)
Theorem extremes_premiers self :
  domaines self ≠ [] →
  ∃ a k1 k2 j1 j2,
    analyser self = Return a ∧
    domaines self = k1 ++ domaine_plus_long a :: k2 ∧
    (∀ y, y ∈ k1 → String.length y < String.length (domaine_plus_long a)) ∧
    (∀ y, y ∈ k2 → String.length y ≤ String.length (domaine_plus_long a)) ∧
    domaines self = j1 ++ domaine_plus_court a :: j2 ∧
    (∀ y, y ∈ j1 → String.length (domaine_plus_court a) < String.length y) ∧
    (∀ y, y ∈ j2 → String.length (domaine_plus_court a) ≤ String.length y).
Proof.
  intros Hne. rewrite (analyser_exact self).
  destruct (domaines self) as [|x r]; [done|].
  destruct (plus_long_de_premier r [] x []) as (k1 & k2 & Hk & Hk1 & Hk2);
    [by intros y Hy; apply elem_of_nil in Hy..|].
  destruct (plus_court_de_premier r [] x []) as (j1 & j2 & Hj & Hj1 & Hj2);
    [by intros y Hy; apply elem_of_nil in Hy..|].
  eexists _, k1, k2, j1, j2. split; [done|]. cbn [domaine_plus_long domaine_plus_court].
  by split_and!.
Qed.

Lemma extremes_premiers_temoin :
  ∃ a k1 k2 j1 j2,
    analyser {| source_file := sitesgouv; lignes_brutes := 4;
                domaines := ["ab.fr"; "abc.fr"; "abd.fr"; "ac.fr"];
                domaines_manquants := [] |} = Return a ∧
    ["ab.fr"; "abc.fr"; "abd.fr"; "ac.fr"] = k1 ++ domaine_plus_long a :: k2 ∧
    (∀ y, y ∈ k1 → String.length y < String.length (domaine_plus_long a)) ∧
    (∀ y, y ∈ k2 → String.length y ≤ String.length (domaine_plus_long a)) ∧
    ["ab.fr"; "abc.fr"; "abd.fr"; "ac.fr"] = j1 ++ domaine_plus_court a :: j2 ∧
    (∀ y, y ∈ j1 → String.length (domaine_plus_court a) < String.length y) ∧
    (∀ y, y ∈ j2 → String.length (domaine_plus_court a) ≤ String.length y).
Proof.
  apply (extremes_premiers
    {| source_file := sitesgouv; lignes_brutes := 4;
       domaines := ["ab.fr"; "abc.fr"; "abd.fr"; "ac.fr"];
       domaines_manquants := [] |}).
  discriminate.
Defined.

(** X9: after a load, where the sequence is ascending, the longest domain
    reported is the first in code-point order of the domains of greatest
    length, and the shortest the first of those of least length. *)
Theorem extremes_apres_chargement fs self self' :
  charger_domaines fs self = Continue self' →
  domaines self' ≠ [] →
  ∃ a, analyser self' = Return a ∧
    domaine_plus_long a ∈ domaines self' ∧
    domaine_plus_court a ∈ domaines self' ∧
    ∀ d, d ∈ domaines self' →
      String.length d ≤ String.length (domaine_plus_long a) ∧
      String.length (domaine_plus_court a) ≤ String.length d ∧
      (String.length d = String.length (domaine_plus_long a) →
       d = domaine_plus_long a ∨ avant (domaine_plus_long a) d) ∧
      (String.length d = String.length (domaine_plus_court a) →
       d = domaine_plus_court a ∨ avant (domaine_plus_court a) d).
Proof.
  intros Hch Hne.
  assert (StronglySorted avant (domaines self')) as Hs.
  { apply charger_domaines_continue in Hch as (contenu & st & _ & _ & ->).
    apply sorted_strict. }
  assert (∃ a k1 k2 j1 j2,
    analyser self' = Return a ∧
    domaines self' = k1 ++ domaine_plus_long a :: k2 ∧
    (∀ y, y ∈ k1 → String.length y < String.length (domaine_plus_long a)) ∧
    (∀ y, y ∈ k2 → String.length y ≤ String.length (domaine_plus_long a)) ∧
    domaines self' = j1 ++ domaine_plus_court a :: j2 ∧
    (∀ y, y ∈ j1 → String.length (domaine_plus_court a) < String.length y) ∧
    (∀ y, y ∈ j2 → String.length (domaine_plus_court a) ≤ String.length y))
    as (a & k1 & k2 & j1 & j2 & Ha & Hk & Hk1 & Hk2 & Hj & Hj1 & Hj2).
  { clear Hs Hch. rewrite (analyser_exact self').
    destruct (domaines self') as [|x r]; [done|].
    destruct (plus_long_de_premier r [] x []) as (k1 & k2 & Hk & Hk1 & Hk2);
      [by intros y Hy; apply elem_of_nil in Hy..|].
    destruct (plus_court_de_premier r [] x []) as (j1 & j2 & Hj & Hj1 & Hj2);
      [by intros y Hy; apply elem_of_nil in Hy..|].
    eexists _, k1, k2, j1, j2. split; [done|].
    cbn [domaine_plus_long domaine_plus_court]. by split_and!. }
  exists a. split; [done|].
  assert (∀ k1 m k2, StronglySorted avant (k1 ++ m :: k2) →
            ∀ d, d ∈ k2 → avant m d) as Hapres.
  { intros l1 m l2 H%StronglySorted_app_1_r d Hd.
    apply StronglySorted_inv in H as [_ H]. by eapply Forall_forall in H. }
  split_and!.
  - rewrite Hk. apply elem_of_app. right. left.
  - rewrite Hj. apply elem_of_app. right. left.
  - intros d Hd. split_and!.
    + rewrite Hk in Hd. apply elem_of_app in Hd as [Hd|Hd];
        [specialize (Hk1 d Hd); lia|].
      apply elem_of_cons in Hd as [->|Hd]; [done|]. by apply Hk2.
    + rewrite Hj in Hd. apply elem_of_app in Hd as [Hd|Hd];
        [specialize (Hj1 d Hd); lia|].
      apply elem_of_cons in Hd as [->|Hd]; [done|]. by apply Hj2.
    + intros Hlen. rewrite Hk in Hd, Hs.
      apply elem_of_app in Hd as [Hd|Hd]; [specialize (Hk1 d Hd); lia|].
      apply elem_of_cons in Hd as [->|Hd]; [by left|right].
      by eapply Hapres.
    + intros Hlen. rewrite Hj in Hd, Hs.
      apply elem_of_app in Hd as [Hd|Hd]; [specialize (Hj1 d Hd); lia|].
      apply elem_of_cons in Hd as [->|Hd]; [by left|right].
      by eapply Hapres.
Qed.

End extremes.

Lemma extremes_apres_chargement_temoin :
  ∃ a, analyser {| source_file := sitesgouv; lignes_brutes := 3;
                   domaines := ["abc.fr"; "abd.fr"; "b.fr"];
                   domaines_manquants := [] |} = Return a ∧
    domaine_plus_long a ∈ ["abc.fr"; "abd.fr"; "b.fr"] ∧
    domaine_plus_court a ∈ ["abc.fr"; "abd.fr"; "b.fr"] ∧
    ∀ d, d ∈ ["abc.fr"; "abd.fr"; "b.fr"] →
      String.length d ≤ String.length (domaine_plus_long a) ∧
      String.length (domaine_plus_court a) ≤ String.length d ∧
      (String.length d = String.length (domaine_plus_long a) →
       d = domaine_plus_long a ∨ avant (domaine_plus_long a) d) ∧
      (String.length d = String.length (domaine_plus_court a) →
       d = domaine_plus_court a ∨ avant (domaine_plus_court a) d).
Proof.
  apply (extremes_apres_chargement
    (un_fichier sitesgouv (nl "b.fr" +:+ nl "abd.fr" +:+ nl "abc.fr"))
    (init sitesgouv)
    {| source_file := sitesgouv; lignes_brutes := 3;
       domaines := ["abc.fr"; "abd.fr"; "b.fr"];
       domaines_manquants := [] |}).
  - vm_compute. reflexivity.
  - discriminate.
Defined.

(** ** The critical domains, the totals and the counters *)

Section totaux.
Implicit Types (self : analyseur) (d : string) (ds : list string).

(** X10: the critical domains reported missing are exactly those of the
    fixed list that are not in the sequence, in the order of the fixed list
    and each once. *)
Theorem manquants_critiques_exacts self :
  ∃ a, analyser self = Return a ∧
    manquants_critiques a `sublist_of` domaines_critiques ∧
    NoDup (manquants_critiques a) ∧
    ∀ d, d ∈ manquants_critiques a ↔ d ∈ domaines_critiques ∧ d ∉ domaines self.
Proof.
  rewrite (analyser_exact self). eexists. split; [done|].
  cbn [manquants_critiques]. split_and!.
  - apply sublist_filter.
  - apply NoDup_filter. apply (bool_decide_unpack _). by vm_compute.
  - intros d. rewrite list_elem_of_filter. tauto.
Qed.

Lemma compter_mono (p q : string → bool) ds :
  (∀ d, p d = true → q d = true) → compter p ds ≤ compter q ds.
Proof.
  intros Hpq. induction ds as [|d ds IH]; [done|]. rewrite !compter_cons.
  specialize (Hpq d). destruct (p d), (q d); cbn; try lia.
  all: by discriminate Hpq.
Qed.

Lemma compter_borne (p : string → bool) ds : compter p ds ≤ length ds.
Proof. apply length_filter. Qed.

(** X11: each "only" counter is at most the total of its category, which is
    at most the number of domains; the total [nombre_developpement] is at
    most the number of domains that pass the environment test; and the four
    "only" counters and the overlap counter are together at most the sum of
    the four primary totals. *)
Theorem totaux_et_compteurs self :
  ∃ a, analyser self = Return a ∧
    ministere_uniquement a ≤ nombre_ministere a ≤ total_domaines a ∧
    region_uniquement a ≤ nombre_region a ≤ total_domaines a ∧
    service_uniquement a ≤ nombre_service a ≤ total_domaines a ∧
    prefecture_uniquement a ≤ nombre_prefecture a ≤ total_domaines a ∧
    nombre_developpement a ≤ compter est_environnement (domaines self) ∧
    ministere_uniquement a + region_uniquement a + service_uniquement a
    + prefecture_uniquement a + nombre_chevauchement a
    ≤ nombre_ministere a + nombre_region a + nombre_service a + nombre_prefecture a.
Proof.
  rewrite (analyser_exact self). eexists. split; [done|].
  cbn [ministere_uniquement region_uniquement service_uniquement
       prefecture_uniquement nombre_chevauchement nombre_ministere nombre_region
       nombre_service nombre_prefecture nombre_developpement total_domaines].
  assert (∀ p ds, compter (seul p) ds ≤ compter p ds) as Hseul.
  { intros p ds. apply compter_mono. intros d. unfold seul.
    by intros [? _]%andb_true_iff. }
  split_and!; try apply Hseul; try apply compter_borne.
  - apply compter_mono. intros d Hd. unfold est_environnement. by rewrite Hd.
  - induction (domaines self) as [|d ds IH]; [done|]. rewrite !compter_cons.
    assert (Nat.b2n (seul est_ministere d) + Nat.b2n (seul est_region d)
            + Nat.b2n (seul est_service d) + Nat.b2n (seul est_prefecture d)
            + Nat.b2n (plusieurs d)
            ≤ Nat.b2n (est_ministere d) + Nat.b2n (est_region d)
              + Nat.b2n (est_service d) + Nat.b2n (est_prefecture d)); [|lia].
    unfold seul, plusieurs, nb_categories.
    by destruct (est_ministere d), (est_region d), (est_service d),
      (est_prefecture d), (est_environnement d); vm_compute; lia.
Qed.

(** X12: every domain is counted once: as the only one of a primary
    category, as an overlap, as a domain that passes the environment test
    alone, or as a domain that passes no test.  The two last kinds, which
    have no counter, are what keeps the five counters under the number of
    domains. *)
Theorem partition_des_domaines self :
  ∃ a, analyser self = Return a ∧
    total_domaines a =
      ministere_uniquement a + region_uniquement a + service_uniquement a
      + prefecture_uniquement a + nombre_chevauchement a
      + compter environnement_seul (domaines self)
      + compter sans_categorie (domaines self).
Proof.
  rewrite (analyser_exact self). eexists. split; [done|].
  cbn [ministere_uniquement region_uniquement service_uniquement
       prefecture_uniquement nombre_chevauchement total_domaines].
  induction (domaines self) as [|d ds IH]; [done|]. rewrite !compter_cons.
  cbn [length]. rewrite IH.
  assert (Nat.b2n (seul est_ministere d) + Nat.b2n (seul est_region d)
          + Nat.b2n (seul est_service d) + Nat.b2n (seul est_prefecture d)
          + Nat.b2n (plusieurs d) + Nat.b2n (environnement_seul d)
          + Nat.b2n (sans_categorie d) = 1); [|lia].
  unfold seul, plusieurs, environnement_seul, sans_categorie, nb_categories,
    nb_primaires.
  by destruct (est_ministere d), (est_region d), (est_service d),
    (est_prefecture d), (est_environnement d).
Qed.

End totaux.

(** ** The report and the run *)

Section rapport.
Implicit Types (self : analyseur) (a : analyse) (env : environnement).

Lemma length_imap_lignes {A B} (f : nat → A → B) (l : list A) :
  length (imap f l) = length l.
Proof. apply length_imap. Qed.

Lemma lignes_rapport_longueur sf t self a :
  length (lignes_rapport sf t self a) =
    30
    + (if bool_decide (manquants_critiques a ≠ [])
       then length (manquants_critiques a) + 2 else 0)
    + (if bool_decide (domaines_manquants self ≠ [])
       then length (domaines_manquants self) `min` 10 + 2
            + (if 10 <? length (domaines_manquants self) then 1 else 0)
       else 0)
    + length (domaines self) `min` 10.
Proof.
  unfold lignes_rapport. rewrite !length_app, length_imap, length_take.
  destruct (bool_decide (manquants_critiques a ≠ []));
    destruct (bool_decide (domaines_manquants self ≠ []));
    rewrite ?length_app, ?length_fmap, ?length_take;
    destruct (10 <? length (domaines_manquants self)); cbn [length]; lia.
Qed.

(** X13: whatever the number of domains and of rejected lines, the report
    made from the analysis has between 30 and 70 lines: at most 15 critical
    domains, 10 rejection records with one line for the others, and 10
    domains are shown. *)
Theorem rapport_borne sf t self :
  ∃ a, analyser self = Return a ∧
    30 ≤ length (lignes_rapport sf t self a) ≤ 70 ∧
    (domaines self = [] → domaines_manquants self = [] →
     length (lignes_rapport sf t self a) = 47).
Proof.
  rewrite (analyser_exact self). eexists. split; [done|].
  rewrite lignes_rapport_longueur. cbn [manquants_critiques].
  assert (length (filter (λ d, d ∉ domaines self) domaines_critiques) ≤ 15) as H15.
  { etrans; [apply length_filter|]. done. }
  split.
  - repeat case_bool_decide;
      try destruct (10 <? length (domaines_manquants self)); lia.
  - intros -> ->. by vm_compute.
Qed.








(** A standard output that takes ASCII text only refuses the first message:
    the run ends there with status 1, on an input that can be read. *)
Example main_stdout_ascii :
  main (env_exemple (nl "sante.gouv.fr") (λ _ t, str_all est_ascii t))
  = arret [] None 1.
Proof. by vm_compute. Qed.

End rapport.

(** ** Line ends, order of the lines, second load *)

Section invariances.
Implicit Types (fs : fichiers) (self : analyseur).

Lemma universal_newlines_sans_CR_borne n : ∀ s : string,
  String.length s ≤ n → contient_char CR (universal_newlines s) = false.
Proof.
  induction n as [|n IH]; intros [|c s] Hn; cbn [String.length] in Hn;
    [done|lia|done|].
  cbn [universal_newlines]. case_bool_decide as Hc.
  - destruct s as [|c' s']; [done|]. cbn [String.length] in Hn.
    case_bool_decide; cbn [contient_char];
      rewrite bool_decide_eq_false_2 by done; cbn [orb];
      apply IH; cbn [String.length]; lia.
  - cbn [contient_char]. rewrite bool_decide_eq_false_2 by done.
    apply IH. lia.
Qed.

Lemma universal_newlines_sans_CR (s : string) :
  contient_char CR (universal_newlines s) = false.
Proof. by apply (universal_newlines_sans_CR_borne (String.length s)). Qed.

Lemma universal_newlines_fixe (s : string) :
  contient_char CR s = false → universal_newlines s = s.
Proof.
  induction s as [|c s IH]; [done|]. cbn [contient_char universal_newlines].
  intros [Hc Hs]%orb_false_iff. rewrite Hc. by rewrite IH.
Qed.

(** X15: the three line ends are read alike.  A file and the same file with
    every CR LF and every lone CR turned into LF have the same lines, and so
    the same load. *)
Theorem chargement_fins_de_ligne fs fs' self contenu :
  fs (source_file self) = Some contenu →
  fs' (source_file self) = Some (universal_newlines contenu) →
  readlines (universal_newlines contenu) = readlines contenu ∧
  charger_domaines fs' self = charger_domaines fs self.
Proof.
  intros Hfs Hfs'.
  assert (readlines (universal_newlines contenu) = readlines contenu) as Hl.
  { unfold readlines.
    by rewrite (universal_newlines_fixe _ (universal_newlines_sans_CR contenu)). }
  split; [done|].
  by rewrite (charger_domaines_exact _ _ _ Hfs), (charger_domaines_exact _ _ _ Hfs'), Hl.
Qed.

Lemma chargement_fins_de_ligne_temoin :
  readlines (universal_newlines
    ("sante.gouv.fr" +:+ String CR (String LF "notadomain") +:+ String CR "elysee.fr"))
  = readlines
    ("sante.gouv.fr" +:+ String CR (String LF "notadomain") +:+ String CR "elysee.fr") ∧
  charger_domaines
    (un_fichier sitesgouv (nl "sante.gouv.fr" +:+ nl "notadomain" +:+ "elysee.fr"))
    (init sitesgouv)
  = charger_domaines
    (un_fichier sitesgouv
       ("sante.gouv.fr" +:+ String CR (String LF "notadomain") +:+ String CR "elysee.fr"))
    (init sitesgouv).
Proof.
  apply (chargement_fins_de_ligne
    (un_fichier sitesgouv
       ("sante.gouv.fr" +:+ String CR (String LF "notadomain") +:+ String CR "elysee.fr"))
    (un_fichier sitesgouv (nl "sante.gouv.fr" +:+ nl "notadomain" +:+ "elysee.fr"))
    (init sitesgouv)); reflexivity.
Defined.

(** X16: the accepted sequence depends on which lines the file has, not on
    their order nor on how often each occurs. *)
Theorem domaines_sans_ordre fs fs' self self2 contenu contenu' r r' :
  fs (source_file self) = Some contenu →
  fs' (source_file self2) = Some contenu' →
  (∀ ligne, ligne ∈ readlines contenu ↔ ligne ∈ readlines contenu') →
  charger_domaines fs self = Continue r →
  charger_domaines fs' self2 = Continue r' →
  domaines r = domaines r'.
Proof.
  intros Hfs Hfs' Hl.
  rewrite (charger_domaines_exact _ _ _ Hfs), (charger_domaines_exact _ _ _ Hfs').
  intros [= <-] [= <-]. cbn [domaines]. f_equal. f_equal.
  apply set_eq. intros d. rewrite !elem_of_list_to_set, !list_elem_of_omap.
  by setoid_rewrite Hl.
Qed.

Lemma domaines_sans_ordre_temoin :
  ["elysee.fr"; "sante.gouv.fr"] = ["elysee.fr"; "sante.gouv.fr"].
Proof.
  apply (domaines_sans_ordre
    (un_fichier sitesgouv (nl "sante.gouv.fr" +:+ nl "elysee.fr" +:+ nl "sante.gouv.fr"))
    (un_fichier sitesgouv (nl "elysee.fr" +:+ nl "sante.gouv.fr"))
    (init sitesgouv) (init sitesgouv)
    (nl "sante.gouv.fr" +:+ nl "elysee.fr" +:+ nl "sante.gouv.fr")
    (nl "elysee.fr" +:+ nl "sante.gouv.fr")
    {| source_file := sitesgouv; lignes_brutes := 3;
       domaines := ["elysee.fr"; "sante.gouv.fr"]; domaines_manquants := [] |}
    {| source_file := sitesgouv; lignes_brutes := 2;
       domaines := ["elysee.fr"; "sante.gouv.fr"]; domaines_manquants := [] |}).
  - reflexivity.
  - reflexivity.
  - intros ligne. vm_compute readlines. rewrite !elem_of_cons. tauto.
  - vm_compute. reflexivity.
  - vm_compute. reflexivity.
Defined.

(** X17: [charger_domaines] does not empty the rejection list of the
    object.  A second load of the same file on the same object gives the
    same accepted sequence and the same line count, and holds every
    rejection record of the file twice. *)
Theorem rechargement_accumule fs self s1 s2 contenu :
  fs (source_file self) = Some contenu →
  charger_domaines fs self = Continue s1 →
  charger_domaines fs s1 = Continue s2 →
  domaines s2 = domaines s1 ∧ lignes_brutes s2 = lignes_brutes s1 ∧
  domaines_manquants s2 =
    domaines_manquants self ++ rejets 1 (readlines contenu)
    ++ rejets 1 (readlines contenu).
Proof.
  intros Hfs. rewrite (charger_domaines_exact _ _ _ Hfs). intros [= <-].
  rewrite (charger_domaines_exact _ _ contenu) by done. intros [= <-].
  cbn [domaines lignes_brutes domaines_manquants]. by rewrite <-app_assoc.
Qed.

Lemma rechargement_accumule_temoin :
  (@nil string) = [] ∧ 1 = 1 ∧
  ["Ligne 1: notadomain..."; "Ligne 1: notadomain..."] =
    [] ++ rejets 1 (readlines (nl "notadomain")) ++ rejets 1 (readlines (nl "notadomain")).
Proof.
  apply (rechargement_accumule (un_fichier sitesgouv (nl "notadomain"))
    (init sitesgouv)
    {| source_file := sitesgouv; lignes_brutes := 1; domaines := [];
       domaines_manquants := ["Ligne 1: notadomain..."] |}
    {| source_file := sitesgouv; lignes_brutes := 1; domaines := [];
       domaines_manquants := ["Ligne 1: notadomain..."; "Ligne 1: notadomain..."] |});
    [reflexivity|vm_compute; reflexivity..].
Defined.

End invariances.
